(** * Storefront backend (main.py): catalog listing, product lookup, order pricing

    A shallow embedding of the three endpoints that carry logic,
    [list_products], [get_product] and [create_order], over
    - Python values and dictionaries ([value], [gmap string value]),
    - Python exceptions as an error monad ([result], [try_except]),
    - binary64 arithmetic for [float] ([SpecFloat] at precision 53),
    - a document store held as explicit state ([Database]).

    The third-party pieces the endpoints call into (bson's ObjectId, the
    store's regular-expression matcher, the text forms of floats) are the
    fields of two classes, [Bson] and [Runtime]; every theorem holds for
    all their instances.  [Fixture] gives one instance and a small
    catalog, on which the statements are exercised at the end. *)

From Stdlib Require Import ZArith Ascii String Floats.SpecFloat.
From stdpp Require Import gmap strings list fin_maps pretty.

Set Warnings "-register-all".
Local Open Scope Z_scope.

(** ** Exceptions and the error monad *)

(** The exceptions the endpoints can raise.  All of them derive from
    Python's [Exception], so an [except Exception] clause catches each. *)
Inductive exn :=
  | HTTPException (status_code : Z) (detail : string)
  | InvalidId (oid : string)
  | TypeError
  | ValueError
  | OverflowError
  | KeyError (key : string).

Inductive result (A : Type) :=
  | Return (a : A)
  | Raise (e : exn).
Arguments Return {A} a.
Arguments Raise {A} e.

#[global] Instance result_ret : MRet result := @Return.
#[global] Instance result_bind : MBind result :=
  λ A B f m, match m with Return a => f a | Raise e => Raise e end.

(** [try: body except Exception as e: handler e] *)
Definition try_except {A} (body : result A) (handler : exn → result A) : result A :=
  match body with
  | Return a => Return a
  | Raise e => handler e
  end.

(** ** Python floats *)

Definition float := spec_float.
Definition float_add : float → float → float := SFadd 53 1024.
Definition float_mul : float → float → float := SFmul 53 1024.
Definition float_div : float → float → float := SFdiv 53 1024.

(** The literal [0.0]. *)
Definition float_zero : float := S754_zero false.

(** Nearest binary64 value of an integer, ties to even. *)
Definition float_of_Z (z : Z) : float := binary_normalize 53 1024 z 0 false.

(** Conversion of a Python [int], as done by [float(n)] and by the mixed
    product [x * n]: integers beyond the binary64 range raise. *)
Definition int_to_float (z : Z) : result float :=
  match float_of_Z z with
  | S754_infinity _ => Raise OverflowError
  | f => Return f
  end.

(** The integer nearest to [k * 2^e], ties to even. *)
Definition round_half_even (k e : Z) : Z :=
  if 0 <=? e then k * 2 ^ e
  else
    let d := 2 ^ (- e) in
    let q := k / d in
    let r := k mod d in
    match 2 * r ?= d with
    | Lt => q
    | Gt => q + 1
    | Eq => if Z.even q then q else q + 1
    end.

(** [round(x, 2)]: the decimal with two fractional digits nearest to [x]
    (ties to even), read back as the nearest binary64 value.  Zeros,
    infinities and NaN round to themselves. *)
Definition round2 (x : float) : float :=
  match x with
  | S754_finite s m e =>
      match round_half_even (Z.pos m * 100) e with
      | Z.pos n => float_div (S754_finite s n 0) (S754_finite false 100 0)
      | _ => S754_zero s
      end
  | _ => x
  end.

(** ** Identifiers *)

(** bson's [ObjectId]: the constructor from a string (which raises
    [InvalidId] on a string it cannot read, here [None]), [str], and the
    identifiers the store hands out on insertion. *)
Class Bson := {
  ObjectId : Type;
  ObjectId_eq_dec :: EqDecision ObjectId;
  ObjectId_new : string → option ObjectId;
  ObjectId_str : ObjectId → string;
  ObjectId_gen : nat → ObjectId
}.

Section Storefront.
Context `{Bson}.

(** ** Python values and store documents *)

Inductive value :=
  | VNone
  | VBool (b : bool)
  | VInt (z : Z)
  | VFloat (f : float)
  | VStr (s : string)
  | VOid (o : ObjectId)
  | VList (l : list value)
  | VDoc (d : gmap string value).

(** A [dict] with string keys: a stored record, a response record, a
    payload. *)
Abbreviation doc := (gmap string value).

(** What the interpreter and the store's matcher supply:
    - [regex_search pattern options subject]: the store's [$regex] test;
    - [float_of_str s]: [float(s)] on a string, [None] when it raises;
    - [repr v]: the text form of a float, a list or a dict. *)
Class Runtime := {
  regex_search : string → string → string → bool;
  float_of_str : string → option float;
  repr : value → string
}.
Context `{Runtime}.

(** [str(v)] *)
Definition py_str (v : value) : string :=
  match v with
  | VNone => "None"
  | VBool true => "True"
  | VBool false => "False"
  | VInt z => pretty z
  | VStr s => s
  | VOid o => ObjectId_str o
  | VFloat _ | VList _ | VDoc _ => repr v
  end.

(** [float(v)] *)
Definition py_float (v : value) : result float :=
  match v with
  | VFloat f => Return f
  | VInt z => int_to_float z
  | VBool b => Return (float_of_Z (if b then 1 else 0))
  | VStr s => match float_of_str s with
              | Some f => Return f
              | None => Raise ValueError
              end
  | VNone | VOid _ | VList _ | VDoc _ => Raise TypeError
  end.

(** [x * n] for a float [x] and an int [n] *)
Definition float_mul_int (x : float) (n : Z) : result float :=
  f ← int_to_float n; Return (float_mul x f).

(** [d.get(key)] and [d.get(key, dflt)] *)
Definition dict_get (d : doc) (key : string) : value := default VNone (d !! key).
Definition dict_get_or (d : doc) (key : string) (dflt : value) : value :=
  default dflt (d !! key).

(** [d[key]] *)
Definition dict_item (d : doc) (key : string) : result value :=
  match d !! key with
  | Some v => Return v
  | None => Raise (KeyError key)
  end.

(** Truth value of an [Optional[str]]'s content and of a looked-up record. *)
Definition str_truthy (s : string) : bool := negb (String.eqb s "").
Definition doc_truthy (d : option doc) : bool :=
  match d with
  | Some d => negb (Nat.eqb (size d) 0)
  | None => false
  end.

(** ** The document store *)

(** One condition of a query document: [{key: v}] or
    [{key: {"$regex": pattern, "$options": options}}]. *)
Inductive cond :=
  | Equals (v : value)
  | Regex (pattern options : string).

(** Equality of a queried scalar with a stored one. *)
Definition value_equals (query stored : value) : bool :=
  match query, stored with
  | VNone, VNone => true
  | VBool a, VBool b => Bool.eqb a b
  | VInt a, VInt b => Z.eqb a b
  | VStr a, VStr b => String.eqb a b
  | VOid a, VOid b => bool_decide (a = b)
  | _, _ => false
  end.

Definition cond_holds (c : cond) (field : option value) : bool :=
  match c, field with
  | Equals v, Some w => value_equals v w
  | Regex pattern options, Some (VStr s) => regex_search pattern options s
  | _, _ => false
  end.

(** A record matches a query when every condition holds of its field. *)
Definition doc_matches (filt : gmap string cond) (d : doc) : bool :=
  bool_decide (map_Forall (λ key c, cond_holds c (d !! key) = true) filt).

(** The store: its collections in natural (insertion) order, the number
    of records inserted so far, and whether the next write is refused
    (with the cause the driver reports). *)
Record Database := {
  collections : gmap string (list doc);
  inserted : nat;
  write_fault : option string
}.

(** [db[name]] *)
Definition collection (db : Database) (name : string) : list doc :=
  default [] (collections db !! name).

(** [coll.find_one(filt)]: the first matching record, or [None]. *)
Fixpoint find_one (coll : list doc) (filt : gmap string cond) : option doc :=
  match coll with
  | [] => None
  | d :: rest => if doc_matches filt d then Some d else find_one rest filt
  end.

(** Modelled from the spec: [get_documents] of the absent [database]
    module.  It returns the records of the collection that satisfy the
    query, in the store's natural order, at most [limit] of them. *)
Definition get_documents (db : Database) (collection_name : string)
    (filt : gmap string cond) (limit : Z) : list doc :=
  take (Z.to_nat limit) (filter (λ d, doc_matches filt d) (collection db collection_name)).

(** Modelled from the spec: [create_document] of the absent [database]
    module.  It persists the payload as a new record of the collection
    under a newly assigned identifier and returns that identifier's string
    form; a persistence failure ([inl]) carries the cause description and
    leaves the store as it was. *)
Definition create_document (db : Database) (collection_name : string) (data : doc)
    : string + string * Database :=
  match write_fault db with
  | Some cause => inl cause
  | None =>
      let new_id := ObjectId_gen (inserted db) in
      inr (ObjectId_str new_id,
           {| collections :=
                <[collection_name :=
                    collection db collection_name ++ [<["_id" := VOid new_id]> data]]>
                  (collections db);
              inserted := S (inserted db);
              write_fault := None |})
  end.

(** ** Request models *)

(** Modelled from the spec: the [OrderItem] and [Order] models of the
    absent [schemas] module.  An item is a product reference and a
    quantity; an order is a sequence of items; each may carry further
    fields, which are passed through uninterpreted. *)
Record OrderItem := {
  product_id : string;
  quantity : Z;
  item_extra : doc
}.

Record Order := {
  items : list OrderItem;
  order_extra : doc
}.

(** [order.model_dump()] *)
Definition item_dump (item : OrderItem) : value :=
  VDoc (<["product_id" := VStr (product_id item)]>
          (<["quantity" := VInt (quantity item)]> (item_extra item))).
Definition model_dump (order : Order) : doc :=
  <["items" := VList (item_dump <$> items order)]> (order_extra order).

(** ** Endpoints *)

(** The body of the loop of [list_products]: the record gets an [id]
    field holding the text of its [_id], and loses [_id]. *)
Definition to_response (d : doc) : doc :=
  delete "_id" (<["id" := VStr (py_str (dict_get d "_id"))]> d).

(** The query document [list_products] builds from its arguments. *)
Definition list_products_filt (category q : option string) : gmap string cond :=
  let filt : gmap string cond := ∅ in
  let filt := match category with
              | Some c =>
                  if str_truthy c then <["category" := Equals (VStr c)]> filt else filt
              | None => filt
              end in
  let filt := match q with
              | Some p => if str_truthy p then <["title" := Regex p "i"]> filt else filt
              | None => filt
              end in
  filt.

(** GET /products *)
Definition list_products (db : option Database) (category q : option string) (limit : Z)
    : result (list doc) :=
  match db with
  | None => Return []
  | Some db =>
      let filt := list_products_filt category q in
      let docs := get_documents db "product" filt limit in
      Return (to_response <$> docs)
  end.

(** GET /products/{product_id} *)
Definition get_product (db : option Database) (product_id : string) : result doc :=
  match db with
  | None => Raise (HTTPException 500 "Database not available")
  | Some db =>
      try_except
        (match ObjectId_new product_id with
         | None => Raise (InvalidId product_id)
         | Some oid =>
             let doc := find_one (collection db "product") {["_id" := Equals (VOid oid)]} in
             if negb (doc_truthy doc) then Raise (HTTPException 404 "Product not found")
             else
               let doc := default ∅ doc in
               native ← dict_item doc "_id";
               Return (delete "_id" (<["id" := VStr (py_str native)]> doc))
         end)
        (λ _, Raise (HTTPException 400 "Invalid product ID"))
  end.

(** The loop of [create_order]: resolve each item in sequence and add its
    line amount to the running total. *)
Fixpoint create_order_loop (db : Database) (order_items : list OrderItem) (total : float)
    : result float :=
  match order_items with
  | [] => Return total
  | item :: rest =>
      match ObjectId_new (product_id item) with
      | None => Raise (InvalidId (product_id item))
      | Some oid =>
          let prod := find_one (collection db "product") {["_id" := Equals (VOid oid)]} in
          if negb (doc_truthy prod) then
            Raise (HTTPException 404 ("Product not found: " +:+ product_id item))
          else
            price ← py_float (dict_get_or (default ∅ prod) "price" (VInt 0));
            amount ← float_mul_int price (quantity item);
            create_order_loop db rest (float_add total amount)
      end
  end.

(** POST /orders: the outcome and the store after the call. *)
Definition create_order (db : option Database) (order : Order)
    : result string * option Database :=
  match db with
  | None => (Raise (HTTPException 500 "Database not available"), None)
  | Some db =>
      match create_order_loop db (items order) float_zero with
      | Raise e => (Raise e, Some db)
      | Return total =>
          let payload := <["total" := VFloat (round2 total)]> (model_dump order) in
          match create_document db "order" payload with
          | inr (new_id, db') => (Return new_id, Some db')
          | inl cause => (Raise (HTTPException 500 cause), Some db)
          end
      end
  end.

(** ** Vocabulary of the statements *)

(** The stored product a reference resolves to: the reference parses into
    an identifier and the product collection holds a record under it. *)
Definition lookup_product (db : Database) (pid : string) : option doc :=
  oid ← ObjectId_new pid;
  find_one (collection db "product") {["_id" := Equals (VOid oid)]}.

(** The unit price [create_order] reads off a product record:
    [float(prod.get("price", 0))]. *)
Definition unit_price (prod : doc) : result float :=
  py_float (dict_get_or prod "price" (VInt 0)).

(** [priced db item (price, qty)]: the item resolves to a stored product
    whose stored price reads as the float [price], and its quantity
    converts to the float [qty]. *)
Definition priced (db : Database) (item : OrderItem) (line : float * float) : Prop :=
  ∃ prod, lookup_product db (product_id item) = Some prod
          ∧ unit_price prod = Return line.1
          ∧ int_to_float (quantity item) = Return line.2.

(** The sum of price times quantity over the lines, accumulated from
    [start] in sequence order. *)
Definition sum_lines (lines : list (float * float)) (start : float) : float :=
  foldl (λ acc line, float_add acc (float_mul line.1 line.2)) start lines.

(** The [(product_id, quantity)] pairs of an order, the part of a
    submission pricing may depend on. *)
Definition references (order : Order) : list (string * Z) :=
  (λ item, (product_id item, quantity item)) <$> items order.

(** A search argument that was left out or given as the empty string. *)
Definition unset (arg : option string) : Prop := arg = None ∨ arg = Some "".

(** The [total] field of the order record a call persisted, if it
    persisted one: the last record of the order collection after a
    successful call. *)
Definition persisted_total (out : result string * option Database) : option value :=
  match out with
  | (Return _, Some db') => d ← last (collection db' "order"); d !! "total"
  | _ => None
  end.

End Storefront.

(** ** The other endpoints: catalog management and diagnostics *)

Section Management.
Context `{Bson}.

(** Modelled from the spec: the [Product] model of the absent [schemas]
    module: title, category and price, and further attributes that are
    stored as given. *)
Record Product := {
  product_title : string;
  product_category : string;
  product_price : float;
  product_extra : gmap string value
}.

(** [product.model_dump()] *)
Definition product_dump (product : Product) : gmap string value :=
  <["title" := VStr (product_title product)]>
    (<["category" := VStr (product_category product)]>
       (<["price" := VFloat (product_price product)]> (product_extra product))).

(** The description carried by the exception [create_document] raises
    when the module holds no store; the [database] module is absent, so the
    text is left open. *)
Variable no_store_cause : string.

(** POST /products.  The endpoint does not test the store handle itself:
    whatever [create_document] raises, the missing store included, comes
    back as status 500 with the exception's text. *)
Definition create_product (db : option Database) (product : Product)
    : result string * option Database :=
  match db with
  | None => (Raise (HTTPException 500 no_store_cause), None)
  | Some db =>
      match create_document db "product" (product_dump product) with
      | inr (new_id, db') => (Return new_id, Some db')
      | inl cause => (Raise (HTTPException 500 cause), Some db)
      end
  end.

(** What the store handle answers to the diagnostics endpoint: its [name]
    attribute, if it has one, and [list_collection_names()], which returns
    the names or raises ([inl], with the exception's text). *)
Record Driver := {
  db_name : option string;
  list_collection_names : string + list string
}.

(** [s[:n]] on text: its first [n] characters.  Text is held as its
    UTF-8 bytes, where a character is a lead byte followed by its
    continuation bytes (those of the form 10xxxxxx): the cut keeps whole
    characters and counts them, not bytes. *)
Definition is_continuation (c : ascii) : bool :=
  let n := Ascii.N_of_ascii c in ((128 <=? n) && (n <? 192))%N.

Fixpoint first_chars (n : nat) (s : string) : string :=
  match s with
  | EmptyString => EmptyString
  | String c rest =>
      if is_continuation c then String c (first_chars n rest)
      else
        match n with
        | O => EmptyString
        | S n' => String c (first_chars n' rest)
        end
  end.

(** The number of characters of a text. *)
Fixpoint char_count (s : string) : nat :=
  match s with
  | EmptyString => O
  | String c rest => if is_continuation c then char_count rest else S (char_count rest)
  end.

(** Truth value of [os.getenv(key)]. *)
Definition env_truthy (v : option string) : bool :=
  match v with
  | Some s => str_truthy s
  | None => false
  end.

(** The body of the outer [try] of [test_database]: the response after
    it, and the text of the exception that escaped it, if one did.  The
    driver call sits in a [try] of its own and every other statement is an
    assignment, so none does. *)
Definition test_database_probe (db : option Database) (driver : Driver)
    (response : gmap string value) : gmap string value * option string :=
  match db with
  | Some _ =>
      let response := <["database" := VStr "✅ Available"]> response in
      let response := <["database_url" := VStr "✅ Configured"]> response in
      let response :=
        <["database_name" := VStr (default "✅ Connected" (db_name driver))]> response in
      let response := <["connection_status" := VStr "Connected"]> response in
      match list_collection_names driver with
      | inr collections =>
          let response := <["collections" := VList (VStr <$> take 10 collections)]> response in
          (<["database" := VStr "✅ Connected & Working"]> response, None)
      | inl e =>
          (<["database" := VStr ("⚠️  Connected but Error: " +:+ first_chars 50 e)]> response,
           None)
      end
  | None => (<["database" := VStr "⚠️  Available but not initialized"]> response, None)
  end.

(** GET /test *)
Definition test_database (db : option Database) (driver : Driver)
    (getenv : string → option string) : gmap string value :=
  let response : gmap string value :=
    {[ "backend" := VStr "✅ Running";
       "database" := VStr "❌ Not Available";
       "database_url" := VNone;
       "database_name" := VNone;
       "connection_status" := VStr "Not Connected";
       "collections" := VList [] ]} in
  let response :=
    match test_database_probe db driver response with
    | (response, None) => response
    | (response, Some e) => <["database" := VStr ("❌ Error: " +:+ first_chars 50 e)]> response
    end in
  let response :=
    <["database_url" :=
        VStr (if env_truthy (getenv "DATABASE_URL") then "✅ Set" else "❌ Not Set")]> response in
  let response :=
    <["database_name" :=
        VStr (if env_truthy (getenv "DATABASE_NAME") then "✅ Set" else "❌ Not Set")]> response in
  response.

End Management.

(** ** A fixture: one instance of the classes and a small catalog *)

Module Fixture.

(** Identifiers written as 24 hexadecimal digits, kept in lower case. *)
Definition is_hex (c : ascii) : bool :=
  let n := Ascii.N_of_ascii c in
  ((48 <=? n) && (n <=? 57) || (97 <=? n) && (n <=? 102) || (65 <=? n) && (n <=? 70))%N.

Definition lower (c : ascii) : ascii :=
  let n := Ascii.N_of_ascii c in
  if ((65 <=? n) && (n <=? 90))%N then Ascii.ascii_of_N (n + 32) else c.

Fixpoint lower_str (s : string) : string :=
  match s with
  | EmptyString => EmptyString
  | String c rest => String (lower c) (lower_str rest)
  end.

Fixpoint all_hex (s : string) : bool :=
  match s with
  | EmptyString => true
  | String c rest => is_hex c && all_hex rest
  end.

Definition hex_new (s : string) : option string :=
  if Nat.eqb (String.length s) 24 && all_hex s then Some (lower_str s) else None.

Definition hex_char (n : N) : ascii :=
  Ascii.ascii_of_N (if (n <? 10)%N then n + 48 else n + 87).

Fixpoint hex_of (digits : nat) (n : N) (acc : string) : string :=
  match digits with
  | O => acc
  | S k => hex_of k (n / 16)%N (String (hex_char (n mod 16)%N) acc)
  end.

Definition bson : Bson :=
  {| ObjectId := string;
     ObjectId_new := hex_new;
     ObjectId_str := λ oid, oid;
     ObjectId_gen := λ n, hex_of 24 (N.of_nat n) EmptyString |}.
#[local] Existing Instance bson.

(** A matcher for patterns without metacharacters: the subject contains
    the pattern, letter case ignored when the options hold [i]. *)
Fixpoint starts_with (p s : string) : bool :=
  match p, s with
  | EmptyString, _ => true
  | String a p', String b s' => Ascii.eqb a b && starts_with p' s'
  | String _ _, EmptyString => false
  end.

Fixpoint contains (p s : string) : bool :=
  starts_with p s || match s with
                    | EmptyString => false
                    | String _ s' => contains p s'
                    end.

Definition literal_search (pattern options subject : string) : bool :=
  if contains "i" options then contains (lower_str pattern) (lower_str subject)
  else contains pattern subject.

(** A reader for plain decimal literals, [[+-]digits[.digits]], rounded
    to the nearest binary64 value. *)
Definition digit (c : ascii) : option Z :=
  let n := Ascii.N_of_ascii c in
  if ((48 <=? n) && (n <=? 57))%N then Some (Z.of_N n - 48) else None.

Fixpoint read_digits (s : string) (mant : Z) (seen : bool) (scale : option nat)
    : option (Z * nat) :=
  match s with
  | EmptyString => if seen then Some (mant, default O scale) else None
  | String c rest =>
      if Ascii.eqb c "."%char then
        match scale with
        | None => read_digits rest mant seen (Some O)
        | Some _ => None
        end
      else
        match digit c with
        | Some d => read_digits rest (mant * 10 + d) true (S <$> scale)
        | None => None
        end
  end.

Definition scaled (sign : bool) (mant : Z) (scale : nat) : float :=
  match mant with
  | Z.pos m => float_div (S754_finite sign m 0)
                         (S754_finite false (Z.to_pos (10 ^ Z.of_nat scale)) 0)
  | _ => S754_zero sign
  end.

Definition decimal_literal (s : string) : option float :=
  match s with
  | String "-" rest => '(m, k) ← read_digits rest 0 false None; Some (scaled true m k)
  | String "+" rest => '(m, k) ← read_digits rest 0 false None; Some (scaled false m k)
  | _ => '(m, k) ← read_digits s 0 false None; Some (scaled false m k)
  end.

Definition runtime : Runtime :=
  {| regex_search := literal_search;
     float_of_str := decimal_literal;
     repr := λ _, "..." |}.
#[local] Existing Instance runtime.

(** The catalog: a widget at 9.99, a gadget at 19.50, and a sample that
    carries no price. *)
Definition widget_id : string := "65f1c0de0000000000000001".
Definition gadget_id : string := "65f1c0de0000000000000002".
Definition sample_id : string := "65f1c0de0000000000000003".
Definition absent_id : string := "65f1c0de00000000000000ff".

Definition price_9_99 : float := S754_finite false 5623870034678907 (-49).
Definition price_19_50 : float := S754_finite false 5488762045857792 (-48).
Definition total_39_48 : float := S754_finite false 5556316040268349 (-47).

Definition widget : gmap string value :=
  {[ "_id" := VOid widget_id; "title" := VStr "Widget";
     "category" := VStr "tools"; "price" := VFloat price_9_99 ]}.
Definition gadget : gmap string value :=
  {[ "_id" := VOid gadget_id; "title" := VStr "Gadget";
     "category" := VStr "electronics"; "price" := VFloat price_19_50 ]}.
Definition sample : gmap string value :=
  {[ "_id" := VOid sample_id; "title" := VStr "Sample"; "category" := VStr "tools" ]}.

Definition shop : Database :=
  {| collections := {[ "product" := [widget; gadget; sample] ]};
     inserted := 3;
     write_fault := None |}.

Definition item (pid : string) (n : Z) : OrderItem :=
  {| product_id := pid; quantity := n; item_extra := ∅ |}.

(** Two widgets and a gadget; the client's own idea of the prices rides
    along in the second submission. *)
Definition basket : Order :=
  {| items := [item widget_id 2; item gadget_id 1]; order_extra := ∅ |}.
Definition basket_tampered : Order :=
  {| items := [ {| product_id := widget_id; quantity := 2;
                   item_extra := {[ "price" := VFloat float_zero ]} |};
                {| product_id := gadget_id; quantity := 1;
                   item_extra := {[ "price" := VInt 1 ]} |} ];
     order_extra := {[ "total" := VInt 1 ]} |}.

(** Orders that cannot be priced: a reference to no stored record, and a
    reference that is no identifier at all, each after a good item. *)
Definition basket_absent : Order :=
  {| items := [item widget_id 1; item absent_id 1]; order_extra := ∅ |}.
Definition basket_malformed : Order :=
  {| items := [item widget_id 1; item "not-an-id" 1]; order_extra := ∅ |}.

(** A second store: one product whose price is stored as null, and
    writes refused. *)
Definition relic_id : string := "65f1c0de0000000000000004".
Definition relic : gmap string value :=
  {[ "_id" := VOid relic_id; "title" := VStr "Relic"; "price" := VNone ]}.
Definition backroom : Database :=
  {| collections := {[ "product" := [relic] ]};
     inserted := 1;
     write_fault := Some "not primary" |}.

Definition basket_relic : Order :=
  {| items := [item relic_id 1]; order_extra := ∅ |}.
Definition basket_huge : Order :=
  {| items := [item widget_id (2 ^ 1024)]; order_extra := ∅ |}.
Definition basket_empty : Order :=
  {| items := []; order_extra := {[ "total" := VInt 7 ]} |}.

(** A product to add to the catalog, and the store handle's answers. *)
Definition gizmo : Product :=
  {| product_title := "Gizmo"; product_category := "tools";
     product_price := price_19_50; product_extra := ∅ |}.
Definition gizmo_id : string := "000000000000000000000003".

Definition driver_up : Driver :=
  {| db_name := Some "shop";
     list_collection_names :=
       inr ["a"; "b"; "c"; "d"; "e"; "f"; "g"; "h"; "i"; "j"; "k"; "l"] |}.

(** The stores that show what C1 leaves unsaid: the relic alone with
    writes accepted, and the shop with writes refused. *)
Definition attic : Database :=
  {| collections := {[ "product" := [relic] ]};
     inserted := 1;
     write_fault := None |}.
Definition closed_shop : Database :=
  {| collections := {[ "product" := [widget; gadget; sample] ]};
     inserted := 3;
     write_fault := Some "not primary" |}.

End Fixture.

(** Lookups in maps written out key by key. *)
Ltac map_lookup :=
  repeat first
    [ rewrite lookup_insert_eq
    | rewrite lookup_insert_ne by discriminate
    | rewrite lookup_singleton_eq
    | rewrite lookup_singleton_ne by discriminate
    | rewrite lookup_empty ].

(** * Properties *)

Section Properties.
Context `{Bson} `{!Runtime}.

Implicit Types (db : Database) (d prod : gmap string value) (item : OrderItem).

(** ** The store *)

Lemma doc_matches_id oid d :
  doc_matches {["_id" := Equals (VOid oid)]} d = true → d !! "_id" = Some (VOid oid).
Proof.
  unfold doc_matches. rewrite bool_decide_eq_true, map_Forall_singleton.
  destruct (d !! "_id") as [[]|] eqn:E; simpl; try discriminate.
  intros Heq. apply bool_decide_eq_true in Heq. by subst.
Qed.

Lemma find_one_Some coll filt d :
  find_one coll filt = Some d → d ∈ coll ∧ doc_matches filt d = true.
Proof.
  induction coll as [|d' coll IH]; simpl; [discriminate|].
  destruct (doc_matches filt d') eqn:E.
  - intros [= ->]. split; [left | done].
  - intros Hd. destruct (IH Hd). split; [by right | done].
Qed.

Lemma doc_truthy_lookup d key v : d !! key = Some v → doc_truthy (Some d) = true.
Proof.
  intros Hk. simpl. destruct (Nat.eqb_spec (size d) 0) as [Hz|]; [|done].
  apply map_size_empty_iff in Hz. subst. by rewrite lookup_empty in Hk.
Qed.

(** A record found under an identifier is never an empty dictionary, so
    the [if not prod] test fires exactly when nothing was found. *)
Lemma find_by_id_truthy coll oid d :
  find_one coll {["_id" := Equals (VOid oid)]} = Some d → doc_truthy (Some d) = true.
Proof.
  intros Hf. apply find_one_Some in Hf as [_ Hm].
  eapply doc_truthy_lookup, doc_matches_id, Hm.
Qed.

Lemma doc_matches_singleton key c d :
  doc_matches {[key := c]} d = cond_holds c (d !! key).
Proof.
  unfold doc_matches. destruct (cond_holds c (d !! key)) eqn:E.
  - apply bool_decide_eq_true. by apply map_Forall_singleton.
  - apply bool_decide_eq_false. rewrite map_Forall_singleton. congruence.
Qed.

Lemma find_one_id_hit d rest oid :
  d !! "_id" = Some (VOid oid) →
  find_one (d :: rest) {["_id" := Equals (VOid oid)]} = Some d.
Proof.
  intros Hid. simpl. rewrite doc_matches_singleton, Hid. simpl.
  by rewrite bool_decide_eq_true_2.
Qed.

Lemma find_one_id_miss d rest oid other :
  d !! "_id" = Some (VOid other) → other ≠ oid →
  find_one (d :: rest) {["_id" := Equals (VOid oid)]}
  = find_one rest {["_id" := Equals (VOid oid)]}.
Proof.
  intros Hid Hne. simpl. rewrite doc_matches_singleton, Hid. simpl.
  by rewrite bool_decide_eq_false_2.
Qed.

Lemma lookup_product_Some db pid prod :
  lookup_product db pid = Some prod →
  ∃ oid, ObjectId_new pid = Some oid
         ∧ find_one (collection db "product") {["_id" := Equals (VOid oid)]} = Some prod.
Proof.
  unfold lookup_product. destruct (ObjectId_new pid) as [oid|]; simpl; [|discriminate].
  intros Hf. by exists oid.
Qed.

Lemma lookup_product_None db pid :
  lookup_product db pid = None →
  ObjectId_new pid = None
  ∨ ∃ oid, ObjectId_new pid = Some oid
           ∧ find_one (collection db "product") {["_id" := Equals (VOid oid)]} = None.
Proof.
  unfold lookup_product. destruct (ObjectId_new pid) as [oid|]; simpl; [|by left].
  intros Hf. right. by exists oid.
Qed.

(** ** The pricing loop *)

Lemma loop_priced db item rest total line :
  priced db item line →
  create_order_loop db (item :: rest) total
  = create_order_loop db rest (float_add total (float_mul line.1 line.2)).
Proof.
  intros (prod & Hl & Hp & Hq).
  apply lookup_product_Some in Hl as (oid & Hoid & Hf).
  simpl. rewrite Hoid, Hf, (find_by_id_truthy _ _ _ Hf). simpl.
  unfold unit_price in Hp. rewrite Hp. simpl.
  unfold float_mul_int. by rewrite Hq.
Qed.

Lemma loop_app db pre rest lines total :
  Forall2 (priced db) pre lines →
  create_order_loop db (pre ++ rest) total
  = create_order_loop db rest (sum_lines lines total).
Proof.
  intros Hall. revert total.
  induction Hall as [|item line pre lines Hp _ IH]; intros total; [done|].
  rewrite <- app_comm_cons, (loop_priced _ _ _ _ _ Hp). apply IH.
Qed.

Lemma loop_unresolved db item rest total :
  lookup_product db (product_id item) = None →
  create_order_loop db (item :: rest) total = Raise (InvalidId (product_id item))
  ∨ create_order_loop db (item :: rest) total
    = Raise (HTTPException 404 ("Product not found: " +:+ product_id item)).
Proof.
  intros Hl. apply lookup_product_None in Hl as [Hn | (oid & Hn & Hf)]; simpl.
  - left. by rewrite Hn.
  - right. by rewrite Hn, Hf.
Qed.

(** Once some item of the sequence does not resolve, the loop raises,
    whatever the items before it do. *)
Lemma loop_raises db order_items :
  (∃ item, item ∈ order_items ∧ lookup_product db (product_id item) = None) →
  ∀ total, ∃ e, create_order_loop db order_items total = Raise e.
Proof.
  induction order_items as [|item rest IH]; intros (bad & Hin & Hbad) total.
  - by apply elem_of_nil in Hin.
  - destruct (lookup_product db (product_id item)) as [prod|] eqn:Hl.
    + apply elem_of_cons in Hin as [-> | Hin]; [congruence|].
      apply lookup_product_Some in Hl as (oid & Hoid & Hf).
      simpl. rewrite Hoid, Hf, (find_by_id_truthy _ _ _ Hf). simpl.
      destruct (py_float _) as [price|e]; simpl; [|by eexists].
      destruct (float_mul_int price (quantity item)) as [amount|e]; simpl; [|by eexists].
      apply IH. eauto.
    + destruct (loop_unresolved db item rest total Hl) as [-> | ->]; by eexists.
Qed.

(** The loop reads nothing of an item but its reference and quantity. *)
Lemma loop_references db items1 items2 total :
  (λ item, (product_id item, quantity item)) <$> items1
  = (λ item, (product_id item, quantity item)) <$> items2 →
  create_order_loop db items1 total = create_order_loop db items2 total.
Proof.
  revert items2 total.
  induction items1 as [|i1 items1 IH]; intros [|i2 items2] total; simpl; try done.
  intros [= Hpid Hqty Hrest]. rewrite Hpid, Hqty.
  destruct (ObjectId_new (product_id i2)); [|done].
  destruct (negb _); [done|].
  destruct (py_float _) as [price|]; simpl; [|done].
  destruct (float_mul_int price (quantity i2)); simpl; [|done].
  by apply IH.
Qed.

(** What a call leaves behind once the loop has produced a total. *)
Lemma create_order_priced db order total :
  create_order_loop db (items order) float_zero = Return total →
  write_fault db = None →
  let new_id := ObjectId_gen (inserted db) in
  let record :=
    <["_id" := VOid new_id]> (<["total" := VFloat (round2 total)]> (model_dump order)) in
  ∃ db', create_order (Some db) order = (Return (ObjectId_str new_id), Some db')
         ∧ collection db' "order" = collection db "order" ++ [record]
         ∧ collection db' "product" = collection db "product".
Proof.
  intros Hloop Hw. simpl. unfold create_order, create_document. rewrite Hloop, Hw.
  eexists. split; [done|]. split; unfold collection; simpl.
  - by rewrite lookup_insert_eq.
  - by rewrite lookup_insert_ne.
Qed.

(** ** Listing *)

Lemma doc_matches_lookup filt d key c :
  doc_matches filt d = true → filt !! key = Some c → cond_holds c (d !! key) = true.
Proof.
  unfold doc_matches. rewrite bool_decide_eq_true. intros Hall Hk. exact (Hall key c Hk).
Qed.

Lemma doc_matches_empty d : doc_matches ∅ d = true.
Proof. unfold doc_matches. apply bool_decide_eq_true, map_Forall_empty. Qed.

Lemma filter_everything (coll : list (gmap string value)) :
  filter (λ d, doc_matches ∅ d) coll = coll.
Proof.
  induction coll as [|d coll IH]; [done|].
  rewrite filter_cons_True; [by rewrite IH|]. by rewrite doc_matches_empty.
Qed.

Lemma doc_matches_insert key c filt d :
  filt !! key = None →
  doc_matches (<[key := c]> filt) d = cond_holds c (d !! key) && doc_matches filt d.
Proof.
  intros Hfresh. unfold doc_matches.
  destruct (cond_holds c (d !! key)) eqn:E; simpl.
  - apply bool_decide_ext. rewrite map_Forall_insert by done. tauto.
  - apply bool_decide_eq_false. rewrite map_Forall_insert by done. intros [? _]. congruence.
Qed.

Lemma filter_cons_bool (f : gmap string value → bool) d (coll : list (gmap string value)) :
  filter (λ d, f d) (d :: coll)
  = if f d then d :: filter (λ d, f d) coll else filter (λ d, f d) coll.
Proof.
  destruct (f d) eqn:E.
  - apply filter_cons_True. simpl. rewrite E. exact I.
  - apply filter_cons_False. simpl. rewrite E. intros [].
Qed.

Lemma cond_holds_equals_str c field :
  cond_holds (Equals (VStr c)) field = true → field = Some (VStr c).
Proof.
  destruct field as [[]|]; simpl; try discriminate.
  intros Heq. apply String.eqb_eq in Heq. by subst.
Qed.

Lemma cond_holds_regex pattern options field :
  cond_holds (Regex pattern options) field = true →
  ∃ t, field = Some (VStr t) ∧ regex_search pattern options t = true.
Proof. destruct field as [[]|]; simpl; try discriminate. eauto. Qed.

Lemma str_truthy_true s : s ≠ "" → str_truthy s = true.
Proof.
  intros Hne. unfold str_truthy. destruct (String.eqb_spec s ""); [contradiction | done].
Qed.

Lemma to_response_insert d :
  to_response d = <["id" := VStr (py_str (dict_get d "_id"))]> (delete "_id" d).
Proof. unfold to_response. by rewrite delete_insert_ne. Qed.

Lemma to_response_other d key :
  key ≠ "_id" → key ≠ "id" → to_response d !! key = d !! key.
Proof.
  intros Hn Hi. unfold to_response. by rewrite lookup_delete_ne, lookup_insert_ne.
Qed.

Lemma get_documents_elem db name filt limit d :
  d ∈ get_documents db name filt limit → d ∈ collection db name ∧ doc_matches filt d = true.
Proof.
  unfold get_documents. intros Hin. apply subseteq_take, list_elem_of_filter in Hin as [Hm Hin].
  split; [done|]. by apply Is_true_true.
Qed.

Lemma filt_category c q :
  c ≠ "" → list_products_filt (Some c) q !! "category" = Some (Equals (VStr c)).
Proof.
  intros Hc. unfold list_products_filt. rewrite (str_truthy_true c Hc).
  destruct q as [p|]; [destruct (str_truthy p)|].
  - rewrite lookup_insert_ne by discriminate. apply lookup_insert_eq.
  - apply lookup_insert_eq.
  - apply lookup_insert_eq.
Qed.

Lemma filt_title category p :
  p ≠ "" → list_products_filt category (Some p) !! "title" = Some (Regex p "i").
Proof.
  intros Hp. unfold list_products_filt. rewrite (str_truthy_true p Hp).
  apply lookup_insert_eq.
Qed.

Lemma filt_unset category q : unset category → unset q → list_products_filt category q = ∅.
Proof. by intros [-> | ->] [-> | ->]. Qed.

(** ** The claims *)

(** C1, as amended.  For every order whose items all resolve to stored
    products, each with a stored price that [float] can read (a missing
    price reading as 0) and a quantity within float range, and a store
    that accepts the write, [create_order] succeeds and persists the order
    with a [total] field equal to round(sum of stored price times
    quantity, 2), the sum being accumulated from 0.0 in the sequence order
    of the items. *)
Theorem create_order_total db order lines :
  Forall2 (priced db) (items order) lines →
  write_fault db = None →
  let total := round2 (sum_lines lines float_zero) in
  let new_id := ObjectId_gen (inserted db) in
  ∃ db',
    create_order (Some db) order = (Return (ObjectId_str new_id), Some db')
    ∧ collection db' "order"
      = collection db "order"
        ++ [<["_id" := VOid new_id]> (<["total" := VFloat total]> (model_dump order))]
    ∧ persisted_total (create_order (Some db) order) = Some (VFloat total).
Proof.
  intros Hall Hw total new_id.
  pose proof (loop_app db _ [] _ float_zero Hall) as Hloop.
  rewrite app_nil_r in Hloop. simpl in Hloop.
  destruct (create_order_priced db order _ Hloop Hw) as (db' & Hrun & Horder & _).
  exists db'. repeat split; [done..|].
  rewrite Hrun. simpl. rewrite Horder, last_snoc. simpl.
  by rewrite lookup_insert_ne, lookup_insert_eq.
Qed.

(** C4. For every order holding at least one item whose product_id does
    not resolve to a stored product (it does not parse, or no record is
    stored under it), [create_order] fails and the store after the call is
    the store before it: no order record is persisted. *)
Theorem create_order_unresolved (db : option Database) order :
  (∃ item, item ∈ items order
           ∧ ∀ store, db = Some store → lookup_product store (product_id item) = None) →
  ∃ e, create_order db order = (Raise e, db).
Proof.
  intros (bad & Hin & Hbad). destruct db as [store|]; [|by eexists].
  destruct (loop_raises store (items order)) with (total := float_zero) as [e He].
  { exists bad. split; [done|]. by apply Hbad. }
  exists e. unfold create_order. by rewrite He.
Qed.

(** C5. The outcome of [create_order] depends only on the store and on
    the items' product_id and quantity: two submissions over the same store
    with the same references, whatever price, total or other fields they
    carry, persist the same total (or both persist nothing) and return the
    same result. *)
Theorem create_order_ignores_client_fields (db : option Database) order1 order2 :
  references order1 = references order2 →
  persisted_total (create_order db order1) = persisted_total (create_order db order2)
  ∧ (create_order db order1).1 = (create_order db order2).1.
Proof.
  intros Href. destruct db as [store|]; [|done].
  unfold create_order. rewrite (loop_references store _ _ float_zero Href).
  destruct (create_order_loop store (items order2) float_zero) as [total|e]; [|done].
  unfold create_document. destruct (write_fault store); [done|].
  simpl. unfold collection at 1 3. simpl. rewrite !lookup_insert_eq. simpl.
  rewrite !last_snoc. simpl.
  by rewrite !(lookup_insert_ne _ "_id" "total"), !lookup_insert_eq.
Qed.

(** C8. An item that resolves to a stored product with no price field is
    priced at unit price 0.0: reading the price does not fail, and the loop
    goes on with the total increased by 0.0 times the quantity. *)
Theorem create_order_missing_price db item rest total prod qty :
  lookup_product db (product_id item) = Some prod →
  prod !! "price" = None →
  int_to_float (quantity item) = Return qty →
  unit_price prod = Return float_zero
  ∧ priced db item (float_zero, qty)
  ∧ create_order_loop db (item :: rest) total
    = create_order_loop db rest (float_add total (float_mul float_zero qty)).
Proof.
  intros Hl Hp Hq.
  assert (unit_price prod = Return float_zero) as Hu.
  { unfold unit_price, dict_get_or. by rewrite Hp. }
  assert (priced db item (float_zero, qty)) as Hpriced by (by exists prod).
  repeat split; [done..|]. by rewrite (loop_priced _ _ _ _ _ Hpriced).
Qed.

(** C7. With the store unavailable, [list_products] returns the empty
    sequence and raises nothing, whatever category, query and limit. *)
Theorem list_products_unavailable category q limit :
  list_products None category q limit = Return [].
Proof. done. Qed.

(** C9. Each record [list_products] returns is a stored product record
    with the [_id] field removed and an [id] field set to the text of the
    identifier; every field other than these two is as stored. *)
Theorem list_products_records db category q limit rs r :
  list_products (Some db) category q limit = Return rs →
  r ∈ rs →
  ∃ d, d ∈ collection db "product"
       ∧ r = <["id" := VStr (py_str (dict_get d "_id"))]> (delete "_id" d)
       ∧ (∀ oid, d !! "_id" = Some (VOid oid) → r !! "id" = Some (VStr (ObjectId_str oid)))
       ∧ r !! "_id" = None
       ∧ (∀ key, key ≠ "_id" → key ≠ "id" → r !! key = d !! key).
Proof.
  unfold list_products. intros [= <-] Hin.
  apply list_elem_of_fmap in Hin as (d & -> & Hd).
  apply get_documents_elem in Hd as [Hd _].
  exists d. split; [done|]. split; [apply to_response_insert|]. split; [|split].
  - intros oid Hoid. rewrite to_response_insert, lookup_insert_eq.
    unfold dict_get. by rewrite Hoid.
  - unfold to_response. apply lookup_delete_eq.
  - intros key. apply to_response_other.
Qed.

(** C10. An empty-string category or query adds no condition to the
    filter: the call returns what it returns with that argument left out. *)
Theorem list_products_empty_string (db : option Database) category q limit :
  list_products db (Some "") q limit = list_products db None q limit
  ∧ list_products db category (Some "") limit = list_products db category None limit.
Proof. by destruct db. Qed.

(** C6, as amended.  With no filter in effect (category and query each
    left out or empty) [list_products] returns all stored products up to
    [limit]; with a non-empty category it returns only records whose
    category field is exactly that string; with a non-empty query it
    returns only records whose title matches the pattern under option [i];
    with both it returns only records satisfying both. *)
Theorem list_products_filters db category q limit rs :
  list_products (Some db) category q limit = Return rs →
  (unset category → unset q →
   rs = to_response <$> take (Z.to_nat limit) (collection db "product"))
  ∧ (∀ c, category = Some c → c ≠ "" →
     ∀ r, r ∈ rs → r !! "category" = Some (VStr c))
  ∧ (∀ p, q = Some p → p ≠ "" →
     ∀ r, r ∈ rs → ∃ t, r !! "title" = Some (VStr t) ∧ regex_search p "i" t = true)
  ∧ (∀ c p, category = Some c → c ≠ "" → q = Some p → p ≠ "" →
     ∀ r, r ∈ rs →
       r !! "category" = Some (VStr c)
       ∧ ∃ t, r !! "title" = Some (VStr t) ∧ regex_search p "i" t = true).
Proof.
  unfold list_products. intros [= <-].
  assert (∀ c, category = Some c → c ≠ "" →
          ∀ r, r ∈ to_response <$> get_documents db "product" (list_products_filt category q) limit →
               r !! "category" = Some (VStr c)) as Hcat.
  { intros c -> Hc r Hin.
    apply list_elem_of_fmap in Hin as (d & -> & Hd).
    apply get_documents_elem in Hd as [_ Hm].
    rewrite to_response_other by discriminate.
    eapply cond_holds_equals_str, doc_matches_lookup; [exact Hm|]. by apply filt_category. }
  assert (∀ p, q = Some p → p ≠ "" →
          ∀ r, r ∈ to_response <$> get_documents db "product" (list_products_filt category q) limit →
               ∃ t, r !! "title" = Some (VStr t) ∧ regex_search p "i" t = true) as Htitle.
  { intros p -> Hp r Hin.
    apply list_elem_of_fmap in Hin as (d & -> & Hd).
    apply get_documents_elem in Hd as [_ Hm].
    rewrite to_response_other by discriminate.
    eapply cond_holds_regex, doc_matches_lookup; [exact Hm|]. by apply filt_title. }
  split; [|split; [exact Hcat|split; [exact Htitle|]]].
  - intros Hc Hq. unfold get_documents.
    by rewrite (filt_unset _ _ Hc Hq), filter_everything.
  - intros c p Hc Hcne Hq Hpne r Hin. split; [by eapply Hcat | by eapply Htitle].
Qed.

(** C2, as the code has it.  A well-formed identifier that matches no
    stored record makes [get_product] raise the error it raises for an
    identifier that does not parse: status 400, "Invalid product ID".  The
    404 raised inside the [try] is caught by its own [except Exception]. *)
Theorem get_product_missing_is_invalid db pid oid malformed :
  ObjectId_new pid = Some oid →
  find_one (collection db "product") {["_id" := Equals (VOid oid)]} = None →
  ObjectId_new malformed = None →
  get_product (Some db) pid = Raise (HTTPException 400 "Invalid product ID")
  ∧ get_product (Some db) pid = get_product (Some db) malformed.
Proof.
  intros Hoid Hnone Hbad. unfold get_product. by rewrite Hoid, Hnone, Hbad.
Qed.

(** C3, as the code has it.  When the first item that fails to resolve
    carries a product_id that does not parse, [create_order] ends with the
    identifier constructor's own [InvalidId] error, not with the 404
    "Product not found: <id>" it raises for a missing record; the store is
    left as it was. *)
Theorem create_order_unparseable db order pre item rest lines :
  items order = pre ++ item :: rest →
  Forall2 (priced db) pre lines →
  ObjectId_new (product_id item) = None →
  create_order (Some db) order = (Raise (InvalidId (product_id item)), Some db)
  ∧ (create_order (Some db) order).1
    ≠ Raise (HTTPException 404 ("Product not found: " +:+ product_id item)).
Proof.
  intros Hitems Hpre Hbad.
  assert (create_order (Some db) order = (Raise (InvalidId (product_id item)), Some db)) as Hrun.
  { unfold create_order. rewrite Hitems, (loop_app _ _ _ _ _ Hpre). simpl. by rewrite Hbad. }
  split; [done|]. by rewrite Hrun.
Qed.

(** ** Further properties of the endpoints *)

(** With the store unavailable [create_order] fails with status 500
    before it looks at the order. *)
Theorem create_order_unavailable order :
  create_order None order = (Raise (HTTPException 500 "Database not available"), None).
Proof. done. Qed.

(** When the first item that fails to resolve carries a well-formed
    product_id under which nothing is stored, [create_order] fails with
    status 404 and a detail that names that product_id; the store is left
    as it was. *)
Theorem create_order_missing_product db order pre item rest lines oid :
  items order = pre ++ item :: rest →
  Forall2 (priced db) pre lines →
  ObjectId_new (product_id item) = Some oid →
  find_one (collection db "product") {["_id" := Equals (VOid oid)]} = None →
  create_order (Some db) order
  = (Raise (HTTPException 404 ("Product not found: " +:+ product_id item)), Some db).
Proof.
  intros Hitems Hpre Hoid Hnone.
  unfold create_order. rewrite Hitems, (loop_app _ _ _ _ _ Hpre). simpl.
  by rewrite Hoid, Hnone.
Qed.

(** [get_product] on an identifier under which a record is stored returns
    that record with [_id] removed and [id] set to the identifier's text. *)
Theorem get_product_found db pid oid d :
  ObjectId_new pid = Some oid →
  find_one (collection db "product") {["_id" := Equals (VOid oid)]} = Some d →
  get_product (Some db) pid = Return (<["id" := VStr (ObjectId_str oid)]> (delete "_id" d)).
Proof.
  intros Hoid Hfound. unfold get_product.
  rewrite Hoid, Hfound, (find_by_id_truthy _ _ _ Hfound). simpl.
  apply find_one_Some in Hfound as [_ Hm]. apply doc_matches_id in Hm.
  unfold dict_item. rewrite Hm. simpl. by rewrite delete_insert_ne.
Qed.

(** With the store unavailable [get_product] fails with status 500. *)
Theorem get_product_unavailable pid :
  get_product None pid = Raise (HTTPException 500 "Database not available").
Proof. done. Qed.

End Properties.

(** * Properties beyond the claims *)

Section Further.
Context `{Bson} `{!Runtime}.

Implicit Types (db : Database) (d prod : gmap string value) (item : OrderItem).

(** ** Helper lemmas *)

Lemma cond_holds_other_id oid d :
  d !! "_id" ≠ Some (VOid oid) → doc_matches {["_id" := Equals (VOid oid)]} d = false.
Proof.
  intros Hne. rewrite doc_matches_singleton.
  destruct (d !! "_id") as [[]|] eqn:E; simpl; try done.
  apply bool_decide_eq_false. intros ->. by apply Hne.
Qed.

Lemma find_one_app_miss coll rest filt :
  (∀ d, d ∈ coll → doc_matches filt d = false) →
  find_one (coll ++ rest) filt = find_one rest filt.
Proof.
  induction coll as [|d coll IH]; intros Hmiss; [done|]. simpl.
  rewrite (Hmiss d) by left. apply IH. intros d' Hd'. apply Hmiss. by right.
Qed.

Lemma priced_same_products db1 db2 item line :
  collection db1 "product" = collection db2 "product" →
  priced db1 item line → priced db2 item line.
Proof.
  intros Hsame (prod & Hl & Hrest). exists prod. split; [|done].
  unfold lookup_product in *. by rewrite <- Hsame.
Qed.

(** A loop that returns has priced every item, and returns the running
    sum of the lines. *)
Lemma loop_Return_inv db order_items total t :
  create_order_loop db order_items total = Return t →
  ∃ lines, Forall2 (priced db) order_items lines ∧ t = sum_lines lines total.
Proof.
  revert total. induction order_items as [|item rest IH]; intros total; simpl.
  - intros [= <-]. exists []. split; [constructor | done].
  - destruct (ObjectId_new (product_id item)) as [oid|] eqn:Hoid; [|discriminate].
    destruct (find_one _ _) as [prod|] eqn:Hf; [|discriminate].
    rewrite (find_by_id_truthy _ _ _ Hf). simpl.
    destruct (py_float _) as [price|] eqn:Hp; simpl; [|discriminate].
    unfold float_mul_int.
    destruct (int_to_float (quantity item)) as [qty|] eqn:Hq; simpl; [|discriminate].
    intros Hrest. destruct (IH _ Hrest) as (lines & Hall & ->).
    exists ((price, qty) :: lines). split; [|done].
    constructor; [|done]. exists prod. split; [|done].
    unfold lookup_product. by rewrite Hoid.
Qed.

(** A loop that raises on a sequence raises the same on every extension
    of it. *)
Lemma loop_prefix_raise db pre rest total e :
  create_order_loop db pre total = Raise e →
  create_order_loop db (pre ++ rest) total = Raise e.
Proof.
  revert total. induction pre as [|item pre IH]; intros total; simpl; [discriminate|].
  destruct (ObjectId_new (product_id item)); [|done].
  destruct (negb _); [done|].
  destruct (py_float _) as [price|]; simpl; [|done].
  destruct (float_mul_int price (quantity item)); simpl; [|done].
  apply IH.
Qed.

Lemma loop_missing db item rest total oid :
  ObjectId_new (product_id item) = Some oid →
  find_one (collection db "product") {["_id" := Equals (VOid oid)]} = None →
  create_order_loop db (item :: rest) total
  = Raise (HTTPException 404 ("Product not found: " +:+ product_id item)).
Proof. intros Hoid Hnone. simpl. by rewrite Hoid, Hnone. Qed.

Lemma loop_price_error db item rest total prod e :
  lookup_product db (product_id item) = Some prod →
  unit_price prod = Raise e →
  create_order_loop db (item :: rest) total = Raise e.
Proof.
  intros Hl Hprice. apply lookup_product_Some in Hl as (oid & Hoid & Hf). simpl.
  rewrite Hoid, Hf, (find_by_id_truthy _ _ _ Hf). simpl.
  unfold unit_price in Hprice. by rewrite Hprice.
Qed.

Lemma loop_quantity_error db item rest total prod price e :
  lookup_product db (product_id item) = Some prod →
  unit_price prod = Return price →
  int_to_float (quantity item) = Raise e →
  create_order_loop db (item :: rest) total = Raise e.
Proof.
  intros Hl Hprice Hq. apply lookup_product_Some in Hl as (oid & Hoid & Hf). simpl.
  rewrite Hoid, Hf, (find_by_id_truthy _ _ _ Hf). simpl.
  unfold unit_price in Hprice. rewrite Hprice. simpl.
  unfold float_mul_int. by rewrite Hq.
Qed.

(** [first_chars n s] is a prefix of [s] that holds the first [n]
    characters of [s], or all of them when [s] has fewer. *)
Lemma first_chars_prefix n s : ∃ rest, s = first_chars n s +:+ rest.
Proof.
  revert n. induction s as [|c s IH]; intros n; simpl; [by exists EmptyString|].
  destruct (is_continuation c).
  - destruct (IH n) as [rest Hrest]. exists rest.
    change (String c s = String c (first_chars n s +:+ rest)). by f_equal.
  - destruct n as [|n]; [by eexists|].
    destruct (IH n) as [rest Hrest]. exists rest.
    change (String c s = String c (first_chars n s +:+ rest)). by f_equal.
Qed.

Lemma first_chars_count n s :
  char_count (first_chars n s) = Nat.min n (char_count s).
Proof.
  revert n. induction s as [|c s IH]; intros n; simpl; [lia|].
  destruct (is_continuation c) eqn:E; simpl.
  - by rewrite E, IH.
  - destruct n as [|n]; simpl; [done|]. rewrite E, IH. lia.
Qed.

Lemma loop_all_priced db order_items lines total :
  Forall2 (priced db) order_items lines →
  create_order_loop db order_items total = Return (sum_lines lines total).
Proof.
  intros Hall. pose proof (loop_app db _ [] _ total Hall) as Hloop.
  by rewrite app_nil_r in Hloop.
Qed.

Lemma create_order_refused db order total cause :
  create_order_loop db (items order) float_zero = Return total →
  write_fault db = Some cause →
  create_order (Some db) order = (Raise (HTTPException 500 cause), Some db).
Proof. intros Hloop Hw. unfold create_order, create_document. by rewrite Hloop, Hw. Qed.

Lemma create_order_raises db order e :
  create_order_loop db (items order) float_zero = Raise e →
  create_order (Some db) order = (Raise e, Some db).
Proof. intros Hloop. unfold create_order. by rewrite Hloop. Qed.

Lemma create_order_Return_loop db order new_id :
  (create_order (Some db) order).1 = Return new_id →
  write_fault db = None
  ∧ ∃ total, create_order_loop db (items order) float_zero = Return total.
Proof.
  unfold create_order, create_document.
  destruct (create_order_loop db (items order) float_zero) as [total|]; [|discriminate].
  destruct (write_fault db); [discriminate|]. eauto.
Qed.

(** ** get_product *)

(** Every failure of [get_product] is one of two HTTP errors: status 500
    when the store is unavailable, status 400 "Invalid product ID"
    otherwise.  It never answers 404, and no other exception leaves it. *)
Theorem get_product_faults (db : option Database) pid e :
  get_product db pid = Raise e →
  (db = None ∧ e = HTTPException 500 "Database not available")
  ∨ (is_Some db ∧ e = HTTPException 400 "Invalid product ID").
Proof.
  destruct db as [store|]; simpl.
  - intros Hrun. right. split; [by eexists|].
    unfold try_except in Hrun.
    destruct (match ObjectId_new pid with Some _ => _ | None => _ end);
      [discriminate | by injection Hrun].
  - intros [= <-]. by left.
Qed.

(** A record [get_product] returns comes from the store: the id string
    parses into an identifier, a product record is stored under it, and
    the answer is that record with [_id] removed and [id] set to the
    identifier's text. *)
Theorem get_product_sound db pid r :
  get_product (Some db) pid = Return r →
  ∃ oid stored,
    ObjectId_new pid = Some oid
    ∧ stored ∈ collection db "product"
    ∧ stored !! "_id" = Some (VOid oid)
    ∧ r = <["id" := VStr (ObjectId_str oid)]> (delete "_id" stored)
    ∧ r !! "_id" = None.
Proof.
  unfold get_product, try_except.
  destruct (ObjectId_new pid) as [oid|] eqn:Hoid; [|discriminate].
  destruct (find_one _ _) as [stored|] eqn:Hf; [|discriminate].
  rewrite (find_by_id_truthy _ _ _ Hf). simpl.
  apply find_one_Some in Hf as [Hin Hm]. apply doc_matches_id in Hm.
  unfold dict_item. rewrite Hm. simpl. intros [= <-].
  exists oid, stored. repeat split; try done.
  - by rewrite delete_insert_ne.
  - apply lookup_delete_eq.
Qed.

(** ** create_order *)

(** Fail fast: when an order fails while its items are being resolved,
    every order that continues its item sequence fails with the same
    error, and nothing is stored; the items after the failing one are
    never looked at. *)
Theorem create_order_fail_fast db order longer rest e :
  write_fault db = None →
  (create_order (Some db) order).1 = Raise e →
  items longer = items order ++ rest →
  create_order (Some db) longer = (Raise e, Some db).
Proof.
  intros Hw Hfail Hitems. apply create_order_raises. rewrite Hitems.
  apply loop_prefix_raise. revert Hfail. unfold create_order, create_document.
  destruct (create_order_loop db (items order) float_zero); [|by intros [= ->]].
  by rewrite Hw.
Qed.

(** The store after a call.  A failed call leaves it as it was.  A
    successful call appends exactly one record to the order collection and
    touches no other collection; the record carries the new identifier
    under [_id], the items as submitted, and every other submitted field
    but [total] unchanged. *)
Theorem create_order_store_after (db : option Database) order :
  match create_order db order with
  | (Raise _, db') => db' = db
  | (Return new_id, db') =>
      ∃ store store' record,
        db = Some store ∧ db' = Some store'
        ∧ collection store' "order" = collection store "order" ++ [record]
        ∧ (∀ name, name ≠ "order" → collection store' name = collection store name)
        ∧ new_id = ObjectId_str (ObjectId_gen (inserted store))
        ∧ record !! "_id" = Some (VOid (ObjectId_gen (inserted store)))
        ∧ record !! "items" = Some (VList (item_dump <$> items order))
        ∧ (∀ key, key ≠ "_id" → key ≠ "total" → record !! key = model_dump order !! key)
  end.
Proof.
  destruct db as [store|]; [|done]. unfold create_order, create_document.
  destruct (create_order_loop store (items order) float_zero) as [total|]; [|done].
  destruct (write_fault store); [done|].
  eexists store, _, _. split; [done|]. split; [done|].
  split; [|split; [|split; [done|split; [|split]]]].
  - unfold collection. simpl. by rewrite lookup_insert_eq.
  - intros name Hname. unfold collection. simpl. by rewrite lookup_insert_ne.
  - apply lookup_insert_eq.
  - rewrite lookup_insert_ne by discriminate. rewrite lookup_insert_ne by discriminate.
    apply lookup_insert_eq.
  - intros key Hid Htotal. by rewrite !lookup_insert_ne.
Qed.

(** Every total [create_order] persists is backed by the catalog: if the
    call succeeds, each item resolved to a stored product with a readable
    price, and the persisted total is the rounded sum of those stored
    prices times the quantities. *)
Theorem create_order_success_inv db order new_id :
  (create_order (Some db) order).1 = Return new_id →
  ∃ lines,
    Forall2 (priced db) (items order) lines
    ∧ persisted_total (create_order (Some db) order)
      = Some (VFloat (round2 (sum_lines lines float_zero))).
Proof.
  intros Hok. destruct (create_order_Return_loop _ _ _ Hok) as (Hw & total & Hloop).
  destruct (loop_Return_inv _ _ _ _ Hloop) as (lines & Hall & ->).
  exists lines. split; [done|].
  destruct (create_order_priced db order _ Hloop Hw) as (db' & Hrun & Horder & _).
  rewrite Hrun. simpl. rewrite Horder, last_snoc. simpl.
  by rewrite lookup_insert_ne, lookup_insert_eq.
Qed.

(** A stored price of null is not read as 0: when the first item that
    cannot be priced resolves to a record whose price field holds null,
    the call ends with the [TypeError] of [float(None)], uncaught, and
    nothing is stored. *)
Theorem create_order_null_price db order pre item rest lines prod :
  items order = pre ++ item :: rest →
  Forall2 (priced db) pre lines →
  lookup_product db (product_id item) = Some prod →
  prod !! "price" = Some VNone →
  create_order (Some db) order = (Raise TypeError, Some db).
Proof.
  intros Hitems Hpre Hl Hprice. apply create_order_raises.
  rewrite Hitems, (loop_app _ _ _ _ _ Hpre).
  apply lookup_product_Some in Hl as (oid & Hoid & Hf). simpl.
  rewrite Hoid, Hf, (find_by_id_truthy _ _ _ Hf). simpl.
  unfold dict_get_or. by rewrite Hprice.
Qed.

(** A quantity beyond the range of a float makes the call fail with the
    [OverflowError] of the mixed product, whatever the price, and nothing
    is stored. *)
Theorem create_order_quantity_overflow db order pre item rest lines prod price :
  items order = pre ++ item :: rest →
  Forall2 (priced db) pre lines →
  lookup_product db (product_id item) = Some prod →
  unit_price prod = Return price →
  int_to_float (quantity item) = Raise OverflowError →
  create_order (Some db) order = (Raise OverflowError, Some db).
Proof.
  intros Hitems Hpre Hl Hprice Hq. apply create_order_raises.
  rewrite Hitems, (loop_app _ _ _ _ _ Hpre).
  apply lookup_product_Some in Hl as (oid & Hoid & Hf). simpl.
  rewrite Hoid, Hf, (find_by_id_truthy _ _ _ Hf). simpl.
  unfold unit_price in Hprice. rewrite Hprice. simpl.
  unfold float_mul_int. by rewrite Hq.
Qed.

(** An order with no items is accepted: the call succeeds and persists
    the total 0.0, whatever total the submission carried. *)
Theorem create_order_empty db order :
  items order = [] →
  write_fault db = None →
  (create_order (Some db) order).1 = Return (ObjectId_str (ObjectId_gen (inserted db)))
  ∧ persisted_total (create_order (Some db) order) = Some (VFloat float_zero).
Proof.
  intros Hitems Hw.
  assert (create_order_loop db (items order) float_zero = Return float_zero) as Hloop
    by (by rewrite Hitems).
  destruct (create_order_priced db order _ Hloop Hw) as (db' & Hrun & Horder & _).
  rewrite Hrun. split; [done|]. simpl. rewrite Horder, last_snoc. simpl.
  by rewrite lookup_insert_ne, lookup_insert_eq.
Qed.

(** When every item is priced but the store refuses the write, the call
    fails with status 500 carrying the cause the store reported, and the
    store is left as it was. *)
Theorem create_order_write_fault db order lines cause :
  Forall2 (priced db) (items order) lines →
  write_fault db = Some cause →
  create_order (Some db) order = (Raise (HTTPException 500 cause), Some db).
Proof.
  intros Hall Hw.
  pose proof (loop_app db _ [] _ float_zero Hall) as Hloop.
  rewrite app_nil_r in Hloop. simpl in Hloop.
  unfold create_order, create_document. by rewrite Hloop, Hw.
Qed.

(** ** list_products *)

(** The query document [list_products] builds holds a category condition
    exactly when the category argument is a non-empty string (equality
    with that string), a title condition exactly when the query argument
    is a non-empty string (that pattern with option [i]), and nothing
    else. *)
Theorem list_products_filt_spec category q key c :
  list_products_filt category q !! key = Some c ↔
    (key = "category" ∧ ∃ s, category = Some s ∧ s ≠ "" ∧ c = Equals (VStr s))
    ∨ (key = "title" ∧ ∃ p, q = Some p ∧ p ≠ "" ∧ c = Regex p "i").
Proof.
  assert (∀ s, {str_truthy s = true ∧ s ≠ ""} + {str_truthy s = false ∧ s = ""}) as Hcases.
  { intros s. unfold str_truthy. destruct (String.eqb_spec s ""); [by right | by left]. }
  unfold list_products_filt.
  destruct category as [s|], q as [p|];
    try (destruct (Hcases s) as [[-> Hs] | [-> ->]]);
    try (destruct (Hcases p) as [[-> Hp] | [-> ->]]);
    rewrite ?lookup_insert, ?lookup_empty; repeat case_decide; subst;
    (split; [intros [= <-] | intros [[? (? & [= <-] & ? & ->)] | [? (? & [= <-] & ? & ->)]]]);
    try done; eauto 10.
Qed.

(** ** create_product *)

Lemma create_product_stored unavailable db product :
  write_fault db = None →
  ∃ db',
    create_product unavailable (Some db) product
    = (Return (ObjectId_str (ObjectId_gen (inserted db))), Some db')
    ∧ collection db' "product"
      = collection db "product"
        ++ [<["_id" := VOid (ObjectId_gen (inserted db))]> (product_dump product)]
    ∧ write_fault db' = None.
Proof.
  intros Hw. unfold create_product, create_document. rewrite Hw.
  eexists. split; [done|]. split; [|done].
  unfold collection. simpl. by rewrite lookup_insert_eq.
Qed.

Lemma lookup_created db db' oid stored :
  collection db' "product" = collection db "product" ++ [stored] →
  stored !! "_id" = Some (VOid oid) →
  (∀ d, d ∈ collection db "product" → d !! "_id" ≠ Some (VOid oid)) →
  find_one (collection db' "product") {["_id" := Equals (VOid oid)]} = Some stored.
Proof.
  intros -> Hid Hfresh. rewrite find_one_app_miss.
  - by apply find_one_id_hit.
  - intros d Hd. by apply cond_holds_other_id, Hfresh.
Qed.

(** Round trip: a product created through [create_product] is returned
    by [get_product] under the identifier the creation answered, with the
    fields it was created with.  It needs a store that accepts the write,
    an identifier the store has not handed out to a product before, and an
    identifier whose text parses back to it. *)
Theorem create_product_then_get unavailable db product :
  write_fault db = None →
  ObjectId_new (ObjectId_str (ObjectId_gen (inserted db))) = Some (ObjectId_gen (inserted db)) →
  (∀ d, d ∈ collection db "product" → d !! "_id" ≠ Some (VOid (ObjectId_gen (inserted db)))) →
  (create_product unavailable (Some db) product).1
  = Return (ObjectId_str (ObjectId_gen (inserted db)))
  ∧ get_product (create_product unavailable (Some db) product).2
      (ObjectId_str (ObjectId_gen (inserted db)))
    = Return (<["id" := VStr (ObjectId_str (ObjectId_gen (inserted db)))]>
                (delete "_id" (product_dump product))).
Proof.
  intros Hw Hround Hfresh.
  destruct (create_product_stored unavailable db product Hw) as (db' & -> & Hcoll & _).
  split; [done|]. simpl. unfold get_product. rewrite Hround.
  rewrite (lookup_created db db' _ _ Hcoll) by (done || apply lookup_insert_eq).
  rewrite (doc_truthy_lookup _ "_id" (VOid (ObjectId_gen (inserted db))))
    by apply lookup_insert_eq.
  cbn [negb default from_option id]. unfold dict_item. rewrite lookup_insert_eq. simpl.
  by rewrite delete_insert_ne, delete_insert_eq.
Qed.

(** A product created through [create_product] can be ordered, and is
    priced at the price it was created with: an order of one item that
    references the new identifier persists the total
    round(0.0 + price * quantity, 2). *)
Theorem create_product_then_order unavailable db product order item qty :
  write_fault db = None →
  ObjectId_new (ObjectId_str (ObjectId_gen (inserted db))) = Some (ObjectId_gen (inserted db)) →
  (∀ d, d ∈ collection db "product" → d !! "_id" ≠ Some (VOid (ObjectId_gen (inserted db)))) →
  items order = [item] →
  product_id item = ObjectId_str (ObjectId_gen (inserted db)) →
  int_to_float (quantity item) = Return qty →
  persisted_total (create_order (create_product unavailable (Some db) product).2 order)
  = Some (VFloat (round2 (float_add float_zero (float_mul (product_price product) qty)))).
Proof.
  intros Hw Hround Hfresh Hitems Hpid Hq.
  destruct (create_product_stored unavailable db product Hw) as (db' & -> & Hcoll & Hw').
  cbn [snd].
  assert (priced db' item (product_price product, qty)) as Hpriced.
  { exists (<["_id" := VOid (ObjectId_gen (inserted db))]> (product_dump product)).
    split; [|split; [|done]].
    - unfold lookup_product. rewrite Hpid, Hround. simpl.
      apply (lookup_created db db' _ _ Hcoll); [apply lookup_insert_eq | done].
    - unfold unit_price, dict_get_or, product_dump.
      rewrite lookup_insert_ne by discriminate. rewrite lookup_insert_ne by discriminate.
      rewrite lookup_insert_ne by discriminate. by rewrite lookup_insert_eq. }
  assert (create_order_loop db' (items order) float_zero
          = Return (float_add float_zero (float_mul (product_price product) qty))) as Hloop.
  { rewrite Hitems. by rewrite (loop_priced _ _ _ _ _ Hpriced). }
  destruct (create_order_priced db' order _ Hloop Hw') as (db'' & Hrun & Horder & _).
  rewrite Hrun. simpl. rewrite Horder, last_snoc. simpl.
  by rewrite lookup_insert_ne, lookup_insert_eq.
Qed.

(** The store after [create_product].  A failed call answers status 500
    and leaves the store as it was.  A successful call appends exactly one
    record to the product collection, the submitted fields under the new
    identifier, and touches no other collection. *)
Theorem create_product_store_after unavailable (db : option Database) product :
  match create_product unavailable db product with
  | (Raise e, db') => db' = db ∧ ∃ text, e = HTTPException 500 text
  | (Return new_id, db') =>
      ∃ store store',
        db = Some store ∧ db' = Some store'
        ∧ new_id = ObjectId_str (ObjectId_gen (inserted store))
        ∧ collection store' "product"
          = collection store "product"
            ++ [<["_id" := VOid (ObjectId_gen (inserted store))]> (product_dump product)]
        ∧ (∀ name, name ≠ "product" → collection store' name = collection store name)
  end.
Proof.
  destruct db as [store|]; [|simpl; eauto]. unfold create_product, create_document.
  destruct (write_fault store); [simpl; eauto|].
  eexists store, _. split; [done|]. split; [done|]. split; [done|]. split.
  - unfold collection. simpl. by rewrite lookup_insert_eq.
  - intros name Hname. unfold collection. simpl. by rewrite lookup_insert_ne.
Qed.

(** ** test_database *)

(** The two environment fields of the diagnostics report depend on the
    environment alone: each reads "Set" exactly when its variable holds a
    non-empty string, whatever the store's state.  What the probe wrote
    into them before (the "Configured" mark, the handle's name) never
    reaches the caller. *)
Theorem test_database_env (db : option Database) driver getenv :
  test_database db driver getenv !! "database_url"
  = Some (VStr (if env_truthy (getenv "DATABASE_URL") then "✅ Set" else "❌ Not Set"))
  ∧ test_database db driver getenv !! "database_name"
    = Some (VStr (if env_truthy (getenv "DATABASE_NAME") then "✅ Set" else "❌ Not Set")).
Proof. unfold test_database. split; by map_lookup. Qed.

(** The collections field of the report lists at most ten names: the
    first ten the driver answered when the store is available and the
    listing succeeded, and none otherwise. *)
Theorem test_database_collections (db : option Database) driver getenv :
  ∃ names : list string,
    test_database db driver getenv !! "collections" = Some (VList (VStr <$> names))
    ∧ (length names ≤ 10)%nat
    ∧ (∀ listing, is_Some db → list_collection_names driver = inr listing →
       names = take 10 listing)
    ∧ (db = None ∨ (∃ e, list_collection_names driver = inl e) → names = []).
Proof.
  unfold test_database, test_database_probe.
  destruct db as [store|]; [destruct (list_collection_names driver) as [e|listing] eqn:E|].
  - exists []. split; [by map_lookup|]. split; [simpl; lia|].
    split; [by intros ? _ [=] | done].
  - exists (take 10 listing). split; [by map_lookup|].
    split; [rewrite length_take; lia|]. split; [by intros ? _ [= <-]|].
    intros [[=] | [e [=]]].
  - exists []. split; [by map_lookup|]. split; [simpl; lia|].
    split; [by intros ? [? [=]] | done].
Qed.

(** The status fields of the report.  The backend always reads as
    running; the connection reads "Connected" exactly when the store
    handle is there; the database line tells the three states apart
    (working, connected with the first fifty characters of the driver's
    error, not initialized), and the line the report starts from, "Not
    Available", is never what the caller gets. *)
Theorem test_database_status (db : option Database) driver getenv :
  let response := test_database db driver getenv in
  response !! "backend" = Some (VStr "✅ Running")
  ∧ response !! "connection_status"
    = Some (VStr match db with Some _ => "Connected" | None => "Not Connected" end)
  ∧ response !! "database"
    = Some (VStr match db, list_collection_names driver with
                 | None, _ => "⚠️  Available but not initialized"
                 | Some _, inr _ => "✅ Connected & Working"
                 | Some _, inl e => "⚠️  Connected but Error: " +:+ first_chars 50 e
                 end)
  ∧ response !! "database" ≠ Some (VStr "❌ Not Available").
Proof.
  unfold test_database, test_database_probe.
  destruct db as [store|]; [destruct (list_collection_names driver) as [e|listing]|];
    cbv zeta; map_lookup; repeat split; try done; discriminate.
Qed.

End Further.

(** * The claims on the fixture *)

#[local] Existing Instance Fixture.bson.
#[local] Existing Instance Fixture.runtime.

Lemma shop_products :
  collection Fixture.shop "product" = [Fixture.widget; Fixture.gadget; Fixture.sample].
Proof. unfold collection, Fixture.shop. cbn [collections]. by map_lookup. Qed.

Lemma widget_oid : Fixture.widget !! "_id" = Some (VOid Fixture.widget_id).
Proof. unfold Fixture.widget. by map_lookup. Qed.

Lemma gadget_oid : Fixture.gadget !! "_id" = Some (VOid Fixture.gadget_id).
Proof. unfold Fixture.gadget. by map_lookup. Qed.

Lemma sample_oid : Fixture.sample !! "_id" = Some (VOid Fixture.sample_id).
Proof. unfold Fixture.sample. by map_lookup. Qed.

Lemma parses_to_itself (s : string) :
  Fixture.hex_new s = Some s → @ObjectId_new Fixture.bson s = @Some (@ObjectId Fixture.bson) s.
Proof. done. Qed.

Lemma lookup_widget : lookup_product Fixture.shop Fixture.widget_id = Some Fixture.widget.
Proof.
  unfold lookup_product. rewrite shop_products.
  rewrite (parses_to_itself Fixture.widget_id) by (vm_compute; reflexivity).
  apply find_one_id_hit, widget_oid.
Qed.

Lemma lookup_gadget : lookup_product Fixture.shop Fixture.gadget_id = Some Fixture.gadget.
Proof.
  unfold lookup_product. rewrite shop_products.
  rewrite (parses_to_itself Fixture.gadget_id) by (vm_compute; reflexivity).
  cbn [mbind option_bind].
  rewrite (find_one_id_miss _ _ _ _ widget_oid) by discriminate.
  apply find_one_id_hit, gadget_oid.
Qed.

Lemma lookup_sample : lookup_product Fixture.shop Fixture.sample_id = Some Fixture.sample.
Proof.
  unfold lookup_product. rewrite shop_products.
  rewrite (parses_to_itself Fixture.sample_id) by (vm_compute; reflexivity).
  cbn [mbind option_bind].
  rewrite (find_one_id_miss _ _ _ _ widget_oid) by discriminate.
  rewrite (find_one_id_miss _ _ _ _ gadget_oid) by discriminate.
  apply find_one_id_hit, sample_oid.
Qed.

Lemma find_absent :
  find_one (collection Fixture.shop "product")
    {["_id" := Equals (VOid Fixture.absent_id)]} = None.
Proof.
  rewrite shop_products.
  rewrite (find_one_id_miss _ _ _ _ widget_oid) by discriminate.
  rewrite (find_one_id_miss _ _ _ _ gadget_oid) by discriminate.
  by rewrite (find_one_id_miss _ _ _ _ sample_oid) by discriminate.
Qed.

Lemma lookup_absent : lookup_product Fixture.shop Fixture.absent_id = None.
Proof.
  unfold lookup_product.
  rewrite (parses_to_itself Fixture.absent_id) by (vm_compute; reflexivity).
  apply find_absent.
Qed.

Lemma priced_widget n qty :
  int_to_float n = Return qty →
  priced Fixture.shop (Fixture.item Fixture.widget_id n) (Fixture.price_9_99, qty).
Proof.
  intros Hq. exists Fixture.widget. split; [apply lookup_widget|]. split; [|exact Hq].
  unfold unit_price, dict_get_or, Fixture.widget. by map_lookup.
Qed.

Lemma priced_gadget n qty :
  int_to_float n = Return qty →
  priced Fixture.shop (Fixture.item Fixture.gadget_id n) (Fixture.price_19_50, qty).
Proof.
  intros Hq. exists Fixture.gadget. split; [apply lookup_gadget|]. split; [|exact Hq].
  unfold unit_price, dict_get_or, Fixture.gadget. by map_lookup.
Qed.

Lemma create_order_total_witness :
  Forall2 (priced Fixture.shop) (items Fixture.basket)
    [(Fixture.price_9_99, float_of_Z 2); (Fixture.price_19_50, float_of_Z 1)]
  ∧ write_fault Fixture.shop = None
  ∧ persisted_total (create_order (Some Fixture.shop) Fixture.basket)
    = Some (VFloat Fixture.total_39_48).
Proof.
  assert (Forall2 (priced Fixture.shop) (items Fixture.basket)
            [(Fixture.price_9_99, float_of_Z 2); (Fixture.price_19_50, float_of_Z 1)])
    as Hall.
  { constructor; [apply priced_widget; vm_compute; reflexivity|].
    constructor; [apply priced_gadget; vm_compute; reflexivity|].
    constructor. }
  split; [exact Hall|]. split; [reflexivity|].
  destruct (create_order_total Fixture.shop Fixture.basket _ Hall eq_refl)
    as (db' & _ & _ & Htotal).
  rewrite Htotal. vm_compute. reflexivity.
Defined.

Lemma create_order_unresolved_witness :
  (∃ item, item ∈ items Fixture.basket_absent
           ∧ ∀ store, Some Fixture.shop = Some store →
                      lookup_product store (product_id item) = None)
  ∧ ∃ e, create_order (Some Fixture.shop) Fixture.basket_absent
         = (Raise e, Some Fixture.shop).
Proof.
  assert (∃ item, item ∈ items Fixture.basket_absent
                  ∧ ∀ store, Some Fixture.shop = Some store →
                             lookup_product store (product_id item) = None) as Hbad.
  { exists (Fixture.item Fixture.absent_id 1). split.
    - right. left.
    - intros store [= <-]. apply lookup_absent. }
  split; [exact Hbad|].
  exact (create_order_unresolved (Some Fixture.shop) Fixture.basket_absent Hbad).
Defined.

Lemma create_order_ignores_client_fields_witness :
  references Fixture.basket = references Fixture.basket_tampered
  ∧ persisted_total (create_order (Some Fixture.shop) Fixture.basket)
    = persisted_total (create_order (Some Fixture.shop) Fixture.basket_tampered).
Proof.
  split; [reflexivity|].
  exact (proj1 (create_order_ignores_client_fields
                  (Some Fixture.shop) Fixture.basket Fixture.basket_tampered eq_refl)).
Defined.

Lemma create_order_missing_price_witness :
  lookup_product Fixture.shop Fixture.sample_id = Some Fixture.sample
  ∧ Fixture.sample !! "price" = None
  ∧ int_to_float 3 = Return (float_of_Z 3)
  ∧ unit_price Fixture.sample = Return float_zero.
Proof.
  assert (Fixture.sample !! "price" = None) as Hp
    by (unfold Fixture.sample; by map_lookup).
  assert (int_to_float 3 = Return (float_of_Z 3)) as Hq by (vm_compute; reflexivity).
  split; [exact lookup_sample|]. split; [exact Hp|]. split; [exact Hq|].
  exact (proj1 (create_order_missing_price Fixture.shop
                  (Fixture.item Fixture.sample_id 3) [] float_zero _ _
                  lookup_sample Hp Hq)).
Defined.

Lemma list_all_products :
  get_documents Fixture.shop "product" ∅ 50
  = [Fixture.widget; Fixture.gadget; Fixture.sample].
Proof.
  unfold get_documents. rewrite shop_products, filter_everything.
  apply take_ge. simpl. lia.
Qed.

Lemma list_products_records_witness :
  list_products (Some Fixture.shop) None None 50
  = Return (to_response <$> [Fixture.widget; Fixture.gadget; Fixture.sample])
  ∧ to_response Fixture.gadget
    ∈ to_response <$> [Fixture.widget; Fixture.gadget; Fixture.sample]
  ∧ ∃ d, d ∈ collection Fixture.shop "product"
         ∧ to_response Fixture.gadget !! "_id" = None
         ∧ to_response Fixture.gadget !! "title" = d !! "title".
Proof.
  assert (list_products (Some Fixture.shop) None None 50
          = Return (to_response <$> [Fixture.widget; Fixture.gadget; Fixture.sample])) as Hrun.
  { unfold list_products. change (list_products_filt None None) with (∅ : gmap string cond).
    by rewrite list_all_products. }
  assert (to_response Fixture.gadget
          ∈ to_response <$> [Fixture.widget; Fixture.gadget; Fixture.sample]) as Hin
    by (right; left).
  split; [exact Hrun|]. split; [exact Hin|].
  destruct (list_products_records Fixture.shop None None 50 _ _ Hrun Hin)
    as (d & Hd & _ & _ & Hnone & Hother).
  exists d. split; [exact Hd|]. split; [exact Hnone|].
  apply Hother; discriminate.
Defined.

Lemma tools_sam_matches d c t :
  d !! "category" = Some (VStr c) →
  d !! "title" = Some (VStr t) →
  doc_matches (list_products_filt (Some "tools") (Some "sam")) d
  = Fixture.literal_search "sam" "i" t && (String.eqb "tools" c && true).
Proof.
  intros Hc Ht.
  change (list_products_filt (Some "tools") (Some "sam"))
    with (<["title" := Regex "sam" "i"]>
            (<["category" := Equals (VStr "tools")]> (∅ : gmap string cond))).
  rewrite doc_matches_insert by (by map_lookup).
  rewrite doc_matches_insert by (by map_lookup).
  by rewrite Hc, Ht, doc_matches_empty.
Qed.

Lemma list_tools_sam :
  get_documents Fixture.shop "product" (list_products_filt (Some "tools") (Some "sam")) 50
  = [Fixture.sample].
Proof.
  unfold get_documents. rewrite shop_products, !filter_cons_bool, filter_nil.
  rewrite (tools_sam_matches Fixture.widget "tools" "Widget")
    by (unfold Fixture.widget; by map_lookup).
  rewrite (tools_sam_matches Fixture.gadget "electronics" "Gadget")
    by (unfold Fixture.gadget; by map_lookup).
  rewrite (tools_sam_matches Fixture.sample "tools" "Sample")
    by (unfold Fixture.sample; by map_lookup).
  replace (Fixture.literal_search "sam" "i" "Widget" && (String.eqb "tools" "tools" && true))
    with false by (vm_compute; reflexivity).
  replace (Fixture.literal_search "sam" "i" "Gadget"
           && (String.eqb "tools" "electronics" && true))
    with false by (vm_compute; reflexivity).
  replace (Fixture.literal_search "sam" "i" "Sample" && (String.eqb "tools" "tools" && true))
    with true by (vm_compute; reflexivity).
  apply take_ge. simpl. lia.
Qed.

Lemma list_products_filters_witness :
  list_products (Some Fixture.shop) (Some "tools") (Some "sam") 50
  = Return [to_response Fixture.sample]
  ∧ "tools" ≠ "" ∧ "sam" ≠ ""
  ∧ to_response Fixture.sample !! "category" = Some (VStr "tools")
  ∧ ∃ t, to_response Fixture.sample !! "title" = Some (VStr t)
         ∧ regex_search "sam" "i" t = true.
Proof.
  assert (list_products (Some Fixture.shop) (Some "tools") (Some "sam") 50
          = Return [to_response Fixture.sample]) as Hrun.
  { unfold list_products. by rewrite list_tools_sam. }
  split; [exact Hrun|]. split; [discriminate|]. split; [discriminate|].
  destruct (list_products_filters Fixture.shop _ _ 50 _ Hrun) as (_ & _ & _ & Hboth).
  apply (Hboth "tools" "sam"); [reflexivity | discriminate | reflexivity | discriminate |].
  left.
Defined.

(** C6 as stated fails at the empty string: [category=""] is a given
    string, no stored category equals it, and the call returns the whole
    catalog. *)
Lemma list_products_empty_category_counterexample :
  ¬ (∀ rs r, list_products (Some Fixture.shop) (Some "") None 50 = Return rs →
             r ∈ rs → r !! "category" = Some (VStr "")).
Proof.
  intros Hclaim.
  assert (list_products (Some Fixture.shop) (Some "") None 50
          = Return (to_response <$> [Fixture.widget; Fixture.gadget; Fixture.sample])) as Hrun.
  { unfold list_products. change (list_products_filt (Some "") None) with (∅ : gmap string cond).
    by rewrite list_all_products. }
  specialize (Hclaim _ (to_response Fixture.widget) Hrun).
  assert (to_response Fixture.widget !! "category" = Some (VStr "")) as Habs
    by (apply Hclaim; left).
  rewrite to_response_other in Habs by discriminate.
  unfold Fixture.widget in Habs. revert Habs. map_lookup. discriminate.
Qed.

Lemma get_product_missing_is_invalid_witness :
  ObjectId_new Fixture.absent_id = Some Fixture.absent_id
  ∧ find_one (collection Fixture.shop "product")
      {["_id" := Equals (VOid Fixture.absent_id)]} = None
  ∧ ObjectId_new "not-an-id" = None
  ∧ get_product (Some Fixture.shop) Fixture.absent_id
    = Raise (HTTPException 400 "Invalid product ID")
  ∧ get_product (Some Fixture.shop) Fixture.absent_id
    = get_product (Some Fixture.shop) "not-an-id".
Proof.
  assert (ObjectId_new Fixture.absent_id = Some Fixture.absent_id) as Hoid
    by (vm_compute; reflexivity).
  assert (ObjectId_new "not-an-id" = None) as Hbad by (vm_compute; reflexivity).
  split; [exact Hoid|]. split; [exact find_absent|]. split; [exact Hbad|].
  exact (get_product_missing_is_invalid Fixture.shop _ _ _ Hoid find_absent Hbad).
Defined.

Lemma create_order_unparseable_witness :
  items Fixture.basket_malformed
  = [Fixture.item Fixture.widget_id 1] ++ Fixture.item "not-an-id" 1 :: []
  ∧ Forall2 (priced Fixture.shop) [Fixture.item Fixture.widget_id 1]
      [(Fixture.price_9_99, float_of_Z 1)]
  ∧ ObjectId_new "not-an-id" = None
  ∧ create_order (Some Fixture.shop) Fixture.basket_malformed
    = (Raise (InvalidId "not-an-id"), Some Fixture.shop).
Proof.
  assert (Forall2 (priced Fixture.shop) [Fixture.item Fixture.widget_id 1]
            [(Fixture.price_9_99, float_of_Z 1)]) as Hpre.
  { constructor; [apply priced_widget; vm_compute; reflexivity|].
    constructor. }
  assert (ObjectId_new "not-an-id" = None) as Hbad by (vm_compute; reflexivity).
  split; [reflexivity|]. split; [exact Hpre|]. split; [exact Hbad|].
  exact (proj1 (create_order_unparseable Fixture.shop Fixture.basket_malformed
                  [Fixture.item Fixture.widget_id 1] (Fixture.item "not-an-id" 1) []
                  _ eq_refl Hpre Hbad)).
Defined.

Lemma create_order_missing_product_witness :
  items Fixture.basket_absent
  = [Fixture.item Fixture.widget_id 1] ++ Fixture.item Fixture.absent_id 1 :: []
  ∧ Forall2 (priced Fixture.shop) [Fixture.item Fixture.widget_id 1]
      [(Fixture.price_9_99, float_of_Z 1)]
  ∧ ObjectId_new Fixture.absent_id = Some Fixture.absent_id
  ∧ create_order (Some Fixture.shop) Fixture.basket_absent
    = (Raise (HTTPException 404 "Product not found: 65f1c0de00000000000000ff"),
       Some Fixture.shop).
Proof.
  assert (Forall2 (priced Fixture.shop) [Fixture.item Fixture.widget_id 1]
            [(Fixture.price_9_99, float_of_Z 1)]) as Hpre.
  { constructor; [apply priced_widget; vm_compute; reflexivity|].
    constructor. }
  assert (ObjectId_new Fixture.absent_id = Some Fixture.absent_id) as Hoid
    by (vm_compute; reflexivity).
  split; [reflexivity|]. split; [exact Hpre|]. split; [exact Hoid|].
  exact (create_order_missing_product Fixture.shop Fixture.basket_absent
           [Fixture.item Fixture.widget_id 1] (Fixture.item Fixture.absent_id 1) []
           _ _ eq_refl Hpre Hoid find_absent).
Defined.

Lemma get_product_found_witness :
  ObjectId_new Fixture.widget_id = Some Fixture.widget_id
  ∧ get_product (Some Fixture.shop) Fixture.widget_id
    = Return (<["id" := VStr Fixture.widget_id]> (delete "_id" Fixture.widget)).
Proof.
  assert (ObjectId_new Fixture.widget_id = Some Fixture.widget_id) as Hoid
    by (vm_compute; reflexivity).
  split; [exact Hoid|].
  refine (get_product_found Fixture.shop _ _ _ Hoid _).
  rewrite shop_products. apply find_one_id_hit, widget_oid.
Defined.

(** * The further properties on the fixture *)

Lemma malformed_id : ObjectId_new "not-an-id" = None.
Proof. vm_compute. reflexivity. Qed.

Lemma get_malformed :
  get_product (Some Fixture.shop) "not-an-id"
  = Raise (HTTPException 400 "Invalid product ID").
Proof. unfold get_product. by rewrite malformed_id. Qed.

Lemma get_product_faults_witness :
  get_product (Some Fixture.shop) "not-an-id"
  = Raise (HTTPException 400 "Invalid product ID")
  ∧ ((Some Fixture.shop = None
      ∧ HTTPException 400 "Invalid product ID"
        = HTTPException 500 "Database not available")
     ∨ (is_Some (Some Fixture.shop)
        ∧ HTTPException 400 "Invalid product ID"
          = HTTPException 400 "Invalid product ID")).
Proof.
  split; [exact get_malformed|].
  exact (get_product_faults (Some Fixture.shop) "not-an-id" _ get_malformed).
Defined.

Lemma get_widget :
  get_product (Some Fixture.shop) Fixture.widget_id
  = Return (<["id" := VStr Fixture.widget_id]> (delete "_id" Fixture.widget)).
Proof.
  unfold get_product.
  rewrite (parses_to_itself Fixture.widget_id) by (vm_compute; reflexivity).
  rewrite shop_products, (find_one_id_hit _ _ _ widget_oid).
  rewrite (doc_truthy_lookup _ _ _ widget_oid).
  cbn [negb default from_option id]. unfold dict_item. rewrite widget_oid. simpl.
  by rewrite delete_insert_ne.
Qed.

Lemma get_product_sound_witness :
  get_product (Some Fixture.shop) Fixture.widget_id
  = Return (<["id" := VStr Fixture.widget_id]> (delete "_id" Fixture.widget))
  ∧ ∃ (oid : ObjectId) stored,
      ObjectId_new Fixture.widget_id = Some oid
      ∧ stored ∈ collection Fixture.shop "product"
      ∧ stored !! "_id" = Some (VOid oid).
Proof.
  split; [exact get_widget|].
  destruct (get_product_sound Fixture.shop _ _ get_widget)
    as (oid & stored & Hoid & Hin & Hid & _).
  by exists oid, stored.
Defined.

Lemma order_absent_fails :
  create_order (Some Fixture.shop) Fixture.basket_absent
  = (Raise (HTTPException 404 "Product not found: 65f1c0de00000000000000ff"),
     Some Fixture.shop).
Proof.
  apply create_order_raises.
  change (items Fixture.basket_absent)
    with ([Fixture.item Fixture.widget_id 1] ++ [Fixture.item Fixture.absent_id 1]).
  rewrite (loop_app Fixture.shop _ _ [(Fixture.price_9_99, float_of_Z 1)]).
  - apply (loop_missing Fixture.shop (Fixture.item Fixture.absent_id 1) [] _
             Fixture.absent_id);
      [vm_compute; reflexivity | apply find_absent].
  - constructor; [apply priced_widget; vm_compute; reflexivity | constructor].
Qed.

Lemma create_order_fail_fast_witness :
  write_fault Fixture.shop = None
  ∧ (create_order (Some Fixture.shop) Fixture.basket_absent).1
    = Raise (HTTPException 404 "Product not found: 65f1c0de00000000000000ff")
  ∧ create_order (Some Fixture.shop)
      {| items := items Fixture.basket_absent ++ [Fixture.item "not-an-id" 1];
         order_extra := ∅ |}
    = (Raise (HTTPException 404 "Product not found: 65f1c0de00000000000000ff"),
       Some Fixture.shop).
Proof.
  assert ((create_order (Some Fixture.shop) Fixture.basket_absent).1
          = Raise (HTTPException 404 "Product not found: 65f1c0de00000000000000ff"))
    as Hfail by (by rewrite order_absent_fails).
  split; [reflexivity|]. split; [exact Hfail|].
  exact (create_order_fail_fast Fixture.shop Fixture.basket_absent
           {| items := items Fixture.basket_absent ++ [Fixture.item "not-an-id" 1];
              order_extra := ∅ |}
           [Fixture.item "not-an-id" 1] _ eq_refl Hfail eq_refl).
Defined.

Lemma basket_priced :
  Forall2 (priced Fixture.shop) (items Fixture.basket)
    [(Fixture.price_9_99, float_of_Z 2); (Fixture.price_19_50, float_of_Z 1)].
Proof.
  constructor; [apply priced_widget; vm_compute; reflexivity|].
  constructor; [apply priced_gadget; vm_compute; reflexivity|].
  constructor.
Qed.

Lemma order_basket_ok :
  (create_order (Some Fixture.shop) Fixture.basket).1 = Return "000000000000000000000003".
Proof.
  pose proof (loop_app Fixture.shop _ [] _ float_zero basket_priced) as Hloop.
  rewrite app_nil_r in Hloop. simpl in Hloop.
  destruct (create_order_priced Fixture.shop Fixture.basket _ Hloop eq_refl)
    as (db' & -> & _).
  reflexivity.
Qed.

Lemma create_order_success_inv_witness :
  (create_order (Some Fixture.shop) Fixture.basket).1 = Return "000000000000000000000003"
  ∧ ∃ lines,
      Forall2 (priced Fixture.shop) (items Fixture.basket) lines
      ∧ persisted_total (create_order (Some Fixture.shop) Fixture.basket)
        = Some (VFloat (round2 (sum_lines lines float_zero))).
Proof.
  split; [exact order_basket_ok|].
  exact (create_order_success_inv Fixture.shop Fixture.basket _ order_basket_ok).
Defined.

Lemma backroom_products : collection Fixture.backroom "product" = [Fixture.relic].
Proof. unfold collection, Fixture.backroom. cbn [collections]. by map_lookup. Qed.

Lemma relic_oid : Fixture.relic !! "_id" = Some (VOid Fixture.relic_id).
Proof. unfold Fixture.relic. by map_lookup. Qed.

Lemma lookup_relic : lookup_product Fixture.backroom Fixture.relic_id = Some Fixture.relic.
Proof.
  unfold lookup_product. rewrite backroom_products.
  rewrite (parses_to_itself Fixture.relic_id) by (vm_compute; reflexivity).
  apply find_one_id_hit, relic_oid.
Qed.

Lemma create_order_null_price_witness :
  items Fixture.basket_relic = [] ++ Fixture.item Fixture.relic_id 1 :: []
  ∧ lookup_product Fixture.backroom Fixture.relic_id = Some Fixture.relic
  ∧ Fixture.relic !! "price" = Some VNone
  ∧ create_order (Some Fixture.backroom) Fixture.basket_relic
    = (Raise TypeError, Some Fixture.backroom).
Proof.
  assert (Fixture.relic !! "price" = Some VNone) as Hnull
    by (unfold Fixture.relic; by map_lookup).
  split; [reflexivity|]. split; [exact lookup_relic|]. split; [exact Hnull|].
  exact (create_order_null_price Fixture.backroom Fixture.basket_relic []
           (Fixture.item Fixture.relic_id 1) [] [] Fixture.relic
           eq_refl (List.Forall2_nil _) lookup_relic Hnull).
Defined.

Lemma create_order_quantity_overflow_witness :
  items Fixture.basket_huge = [] ++ Fixture.item Fixture.widget_id (2 ^ 1024) :: []
  ∧ lookup_product Fixture.shop Fixture.widget_id = Some Fixture.widget
  ∧ unit_price Fixture.widget = Return Fixture.price_9_99
  ∧ int_to_float (2 ^ 1024) = Raise OverflowError
  ∧ create_order (Some Fixture.shop) Fixture.basket_huge
    = (Raise OverflowError, Some Fixture.shop).
Proof.
  assert (unit_price Fixture.widget = Return Fixture.price_9_99) as Hprice
    by (unfold unit_price, dict_get_or, Fixture.widget; by map_lookup).
  assert (int_to_float (2 ^ 1024) = Raise OverflowError) as Hq
    by (vm_compute; reflexivity).
  split; [reflexivity|]. split; [exact lookup_widget|]. split; [exact Hprice|].
  split; [exact Hq|].
  exact (create_order_quantity_overflow Fixture.shop Fixture.basket_huge []
           (Fixture.item Fixture.widget_id (2 ^ 1024)) [] [] Fixture.widget _
           eq_refl (List.Forall2_nil _) lookup_widget Hprice Hq).
Defined.

Lemma create_order_empty_witness :
  items Fixture.basket_empty = []
  ∧ write_fault Fixture.shop = None
  ∧ persisted_total (create_order (Some Fixture.shop) Fixture.basket_empty)
    = Some (VFloat float_zero).
Proof.
  split; [reflexivity|]. split; [reflexivity|].
  exact (proj2 (create_order_empty Fixture.shop Fixture.basket_empty eq_refl eq_refl)).
Defined.

Lemma create_order_write_fault_witness :
  Forall2 (priced Fixture.backroom) (items Fixture.basket_empty) []
  ∧ write_fault Fixture.backroom = Some "not primary"
  ∧ create_order (Some Fixture.backroom) Fixture.basket_empty
    = (Raise (HTTPException 500 "not primary"), Some Fixture.backroom).
Proof.
  split; [constructor|]. split; [reflexivity|].
  exact (create_order_write_fault Fixture.backroom Fixture.basket_empty [] _
           (List.Forall2_nil _) eq_refl).
Defined.

Lemma gizmo_id_parses :
  ObjectId_new (ObjectId_str (ObjectId_gen (inserted Fixture.shop)))
  = Some (ObjectId_gen (inserted Fixture.shop)).
Proof.
  change (inserted Fixture.shop) with 3%nat. vm_compute. reflexivity.
Qed.

Lemma gizmo_id_fresh d :
  d ∈ collection Fixture.shop "product" →
  d !! "_id" ≠ Some (VOid (ObjectId_gen (inserted Fixture.shop))).
Proof.
  change (inserted Fixture.shop) with 3%nat.
  change (ObjectId_gen 3) with (Fixture.hex_of 24 3%N EmptyString).
  rewrite shop_products. intros Hd.
  apply elem_of_cons in Hd as [-> | Hd]; [rewrite widget_oid|].
  { intros Heq. discriminate Heq. }
  apply elem_of_cons in Hd as [-> | Hd]; [rewrite gadget_oid|].
  { intros Heq. discriminate Heq. }
  apply elem_of_cons in Hd as [-> | Hd]; [rewrite sample_oid|].
  { intros Heq. discriminate Heq. }
  by apply elem_of_nil in Hd.
Qed.

Lemma create_product_then_get_witness :
  write_fault Fixture.shop = None
  ∧ (create_product "no store" (Some Fixture.shop) Fixture.gizmo).1
    = Return Fixture.gizmo_id
  ∧ get_product (create_product "no store" (Some Fixture.shop) Fixture.gizmo).2
      Fixture.gizmo_id
    = Return (<["id" := VStr Fixture.gizmo_id]> (delete "_id" (product_dump Fixture.gizmo))).
Proof.
  split; [reflexivity|].
  exact (create_product_then_get "no store" Fixture.shop Fixture.gizmo
           eq_refl gizmo_id_parses gizmo_id_fresh).
Defined.

Lemma create_product_then_order_witness :
  write_fault Fixture.shop = None
  ∧ int_to_float 2 = Return (float_of_Z 2)
  ∧ persisted_total
      (create_order (create_product "no store" (Some Fixture.shop) Fixture.gizmo).2
         {| items := [Fixture.item Fixture.gizmo_id 2]; order_extra := ∅ |})
    = Some (VFloat (round2 (float_add float_zero
                              (float_mul Fixture.price_19_50 (float_of_Z 2))))).
Proof.
  assert (int_to_float 2 = Return (float_of_Z 2)) as Hq by (vm_compute; reflexivity).
  split; [reflexivity|]. split; [exact Hq|].
  exact (create_product_then_order "no store" Fixture.shop Fixture.gizmo
           {| items := [Fixture.item Fixture.gizmo_id 2]; order_extra := ∅ |}
           (Fixture.item Fixture.gizmo_id 2) _
           eq_refl gizmo_id_parses gizmo_id_fresh eq_refl eq_refl Hq).
Defined.

(** ** C1 as stated *)

Lemma attic_products : collection Fixture.attic "product" = [Fixture.relic].
Proof. unfold collection, Fixture.attic. cbn [collections]. by map_lookup. Qed.

Lemma lookup_relic_attic :
  lookup_product Fixture.attic Fixture.relic_id = Some Fixture.relic.
Proof.
  unfold lookup_product. rewrite attic_products.
  rewrite (parses_to_itself Fixture.relic_id) by (vm_compute; reflexivity).
  apply find_one_id_hit, relic_oid.
Qed.

Lemma closed_shop_products :
  collection Fixture.closed_shop "product" = collection Fixture.shop "product".
Proof.
  rewrite shop_products. unfold collection, Fixture.closed_shop. cbn [collections].
  by map_lookup.
Qed.

(** C1 as stated fails: resolving every item is not enough.  On each of
    three inputs every item of the order resolves to a stored product
    record, and yet nothing is persisted: the relic's price is stored as
    null and [float(None)] raises; a quantity of 2^1024 does not convert to
    a float; a store that refuses the write makes the call end with
    status 500. *)
Lemma create_order_total_counterexample :
  ((∀ item, item ∈ items Fixture.basket_relic →
            is_Some (lookup_product Fixture.attic (product_id item)))
   ∧ write_fault Fixture.attic = None
   ∧ create_order (Some Fixture.attic) Fixture.basket_relic
     = (Raise TypeError, Some Fixture.attic)
   ∧ persisted_total (create_order (Some Fixture.attic) Fixture.basket_relic) = None)
  ∧ ((∀ item, item ∈ items Fixture.basket_huge →
              is_Some (lookup_product Fixture.shop (product_id item)))
     ∧ write_fault Fixture.shop = None
     ∧ create_order (Some Fixture.shop) Fixture.basket_huge
       = (Raise OverflowError, Some Fixture.shop)
     ∧ persisted_total (create_order (Some Fixture.shop) Fixture.basket_huge) = None)
  ∧ ((∀ item, item ∈ items Fixture.basket →
              is_Some (lookup_product Fixture.closed_shop (product_id item)))
     ∧ create_order (Some Fixture.closed_shop) Fixture.basket
       = (Raise (HTTPException 500 "not primary"), Some Fixture.closed_shop)
     ∧ persisted_total (create_order (Some Fixture.closed_shop) Fixture.basket) = None).
Proof.
  assert (create_order (Some Fixture.attic) Fixture.basket_relic
          = (Raise TypeError, Some Fixture.attic)) as Hnull.
  { apply create_order_raises.
    apply (loop_price_error Fixture.attic (Fixture.item Fixture.relic_id 1) []
             _ Fixture.relic); [apply lookup_relic_attic|].
    unfold unit_price, dict_get_or, Fixture.relic. by map_lookup. }
  assert (create_order (Some Fixture.shop) Fixture.basket_huge
          = (Raise OverflowError, Some Fixture.shop)) as Hhuge.
  { apply create_order_raises.
    apply (loop_quantity_error Fixture.shop (Fixture.item Fixture.widget_id (2 ^ 1024)) []
             _ Fixture.widget Fixture.price_9_99); [apply lookup_widget | |].
    - unfold unit_price, dict_get_or, Fixture.widget. by map_lookup.
    - vm_compute. reflexivity. }
  assert (create_order (Some Fixture.closed_shop) Fixture.basket
          = (Raise (HTTPException 500 "not primary"), Some Fixture.closed_shop)) as Hclosed.
  { assert (Forall2 (priced Fixture.closed_shop) (items Fixture.basket)
              [(Fixture.price_9_99, float_of_Z 2); (Fixture.price_19_50, float_of_Z 1)])
      as Hall.
    { eapply Forall2_impl; [exact basket_priced|].
      intros item line. apply priced_same_products. symmetry. apply closed_shop_products. }
    exact (create_order_refused Fixture.closed_shop Fixture.basket _ _
             (loop_all_priced _ _ _ float_zero Hall) eq_refl). }
  split; [|split].
  - split; [|split; [reflexivity|split; [exact Hnull | by rewrite Hnull]]].
    intros item Hin. apply list_elem_of_singleton in Hin as ->.
    exists Fixture.relic. exact lookup_relic_attic.
  - split; [|split; [reflexivity|split; [exact Hhuge | by rewrite Hhuge]]].
    intros item Hin. apply list_elem_of_singleton in Hin as ->.
    exists Fixture.widget. exact lookup_widget.
  - split; [|split; [exact Hclosed | by rewrite Hclosed]].
    intros item Hin. unfold lookup_product. rewrite closed_shop_products.
    apply elem_of_cons in Hin as [-> | Hin]; [exists Fixture.widget; exact lookup_widget|].
    apply list_elem_of_singleton in Hin as ->.
    exists Fixture.gadget. exact lookup_gadget.
Qed.

(** ** The cut of an error text *)

(** Fifty characters of a text of sixty two-byte characters: the cut
    keeps fifty of them, a hundred bytes. *)
Example first_chars_accented :
  let e := String.concat "" (replicate 60 "é") in
  first_chars 50 e = String.concat "" (replicate 50 "é")
  ∧ String.length (first_chars 50 e) = 100%nat
  ∧ first_chars 3 "naïve" = "naï".
Proof. vm_compute. done. Qed.
